(** * Credential and session lifecycle of the authentication backend

    A shallow embedding of the [UserLogin] model (models/userLogin.model.js)
    and of [authService] (Backend/src/services/auth.service.js), followed by
    the properties of lockout, device binding, token rotation and
    revocation that hold of them.

    Conventions of the embedding.
    - A mongoose document is a record; a method that mutates [this] and
      calls [save()] returns the saved document next to its result.
    - A service method starts from the result of its own [findOne]/[findById]
      ([found : option UserLogin]) and returns what it resolves or throws
      together with the document as it is persisted when it ends.  The
      lookups themselves are functions of a collection that holds every
      document under its [_id] ([UserLogins]); [refreshTokensIn] is
      [refreshTokens] behind the lookup the source makes.
    - A device id reaches the methods as a string or not at all, which is
      what [option string] holds.  A request body that carries a value of
      another type as [deviceId] (a JSON number, say) is not covered:
      [===] never matches it against the strings the schema stores.
    - [Date] values are milliseconds since the epoch, in [Z].  Every
      [new Date()] and [Date.now()] of a method is an input of its own, named
      after the place that reads it, so nothing is assumed on how fast a
      method runs.
    - A JavaScript value tested for truthiness is an [option string]:
      [None] is [undefined]/[null], and [Some ""] is falsy as well.
    - The [timestamps] option of the schema ([createdAt]/[updatedAt] of the
      document itself) is bookkeeping of the store and is left out. *)

From Stdlib Require Import ZArith List String Bool Lia.
From Stdlib Require Import Ascii DecimalString DecimalN FinFun.
Import ListNotations.
Open Scope string_scope.
Open Scope list_scope.
Open Scope Z_scope.

(** ** JavaScript values *)

Definition Time := Z.
Definition ObjectId := Z.

(** [x] when [x] is truthy: a string that is present and not empty. *)
Definition truthy (x : option string) : option string :=
  match x with
  | Some s => if String.eqb s "" then None else Some s
  | None => None
  end.

(** [x || dflt] on strings. *)
Definition or_else (x : option string) (dflt : string) : string :=
  match truthy x with
  | Some s => s
  | None => dflt
  end.

(** [Math.ceil(a / b)] for a positive divisor. *)
Definition ceil_div (a b : Z) : Z := - ((- a) / b).

(** ** jsonwebtoken

    [jwt.sign(payload, secret, {expiresIn})] adds [iat], the clock in whole
    seconds, and [exp = iat + expiresIn] to the payload and appends an HMAC of
    header and payload under the secret.  The service signs under two
    process-wide secrets; under one secret the string is a function of the
    claims, one to one, so a token is modelled as the secret it was signed
    under and its claims.  [Foreign] stands for every string that was signed
    under neither. *)

Inductive Secret := ACCESS_TOKEN_SECRET | REFRESH_TOKEN_SECRET.

Record Claims := mkClaims {
  jwt_id : ObjectId;
  jwt_username : option string;
  jwt_iat : Z;
  jwt_exp : Z
}.

Inductive Token :=
| Signed (key : Secret) (c : Claims)
| Foreign (s : string).

Inductive JwtError := TokenExpiredError | JsonWebTokenError.

Definition Secret_eqb (a b : Secret) : bool :=
  match a, b with
  | ACCESS_TOKEN_SECRET, ACCESS_TOKEN_SECRET => true
  | REFRESH_TOKEN_SECRET, REFRESH_TOKEN_SECRET => true
  | _, _ => false
  end.

Definition jwt_sign (key : Secret) (id : ObjectId) (uname : option string)
    (expiresIn : Z) (now : Time) : Token :=
  Signed key (mkClaims id uname (now / 1000) (now / 1000 + expiresIn)).

(** [jwt.verify(token, secret)]: the signature first, then the expiry. *)
Definition jwt_verify (key : Secret) (t : Token) (now : Time) : JwtError + Claims :=
  match t with
  | Signed k c =>
      if Secret_eqb k key
      then if jwt_exp c <=? now / 1000 then inl TokenExpiredError else inr c
      else inl JsonWebTokenError
  | Foreign _ => inl JsonWebTokenError
  end.

Definition option_string_eqb (a b : option string) : bool :=
  match a, b with
  | Some x, Some y => String.eqb x y
  | None, None => true
  | _, _ => false
  end.

Definition Claims_eqb (a b : Claims) : bool :=
  (jwt_id a =? jwt_id b) && option_string_eqb (jwt_username a) (jwt_username b)
  && (jwt_iat a =? jwt_iat b) && (jwt_exp a =? jwt_exp b).

(** [===] on token strings. *)
Definition Token_eqb (a b : Token) : bool :=
  match a, b with
  | Signed k x, Signed k' y => Secret_eqb k k' && Claims_eqb x y
  | Foreign x, Foreign y => String.eqb x y
  | _, _ => false
  end.

(** ** Process environment and bcryptjs *)

(** [ACCESS_TOKEN_EXPIRY] and [REFRESH_TOKEN_EXPIRY], in seconds. *)
Class TokenConfig := {
  accessTokenExpiry : Z;
  refreshTokenExpiry : Z
}.

(** The defaults of the model file: ["15m"] and ["7d"]. *)
Definition defaultTokenConfig : TokenConfig :=
  {| accessTokenExpiry := 900; refreshTokenExpiry := 604800 |}.

(** [bcryptjs.hash(plain, salt)] and [bcryptjs.compare(candidate, hash)]. *)
Class PasswordHasher := {
  bcrypt_hash : string -> string -> string;
  bcrypt_compare : string -> string -> bool
}.

(** ** The schema *)

Record RefreshEntry := mkRefreshEntry {
  rt_token : Token;
  rt_deviceId : string;
  rt_createdAt : Time
}.

Record LoginEvent := mkLoginEvent {
  loginAt : Time;
  logoutAt : option Time
}.

Record Device := mkDevice {
  deviceId : string;
  ipAddress : option string;
  userAgent : option string;
  loginCount : Z;
  refreshToken : option Token;
  loginHistory : list LoginEvent
}.

Record UserLogin := mkUserLogin {
  user : ObjectId;
  username : string;
  password : string;
  refreshTokens : list RefreshEntry;
  failedLoginAttempts : Z;
  lockLevel : Z;
  lockUntil : option Time;
  isPermanentlyLocked : bool;
  isLoggedIn : bool;
  lastLogin : option Time;
  loggedInDevices : list Device
}.

(** The fields of the [User] document that [login] reads. *)
Record User := mkUser {
  canLogin : bool;
  isActive : bool
}.

(** *** Field assignments *)

Definition set_password (v : string) (r : UserLogin) : UserLogin :=
  mkUserLogin (user r) (username r) v (refreshTokens r) (failedLoginAttempts r)
    (lockLevel r) (lockUntil r) (isPermanentlyLocked r) (isLoggedIn r)
    (lastLogin r) (loggedInDevices r).

Definition set_refreshTokens (v : list RefreshEntry) (r : UserLogin) : UserLogin :=
  mkUserLogin (user r) (username r) (password r) v (failedLoginAttempts r)
    (lockLevel r) (lockUntil r) (isPermanentlyLocked r) (isLoggedIn r)
    (lastLogin r) (loggedInDevices r).

Definition set_failedLoginAttempts (v : Z) (r : UserLogin) : UserLogin :=
  mkUserLogin (user r) (username r) (password r) (refreshTokens r) v
    (lockLevel r) (lockUntil r) (isPermanentlyLocked r) (isLoggedIn r)
    (lastLogin r) (loggedInDevices r).

Definition set_lockLevel (v : Z) (r : UserLogin) : UserLogin :=
  mkUserLogin (user r) (username r) (password r) (refreshTokens r)
    (failedLoginAttempts r) v (lockUntil r) (isPermanentlyLocked r)
    (isLoggedIn r) (lastLogin r) (loggedInDevices r).

Definition set_lockUntil (v : option Time) (r : UserLogin) : UserLogin :=
  mkUserLogin (user r) (username r) (password r) (refreshTokens r)
    (failedLoginAttempts r) (lockLevel r) v (isPermanentlyLocked r)
    (isLoggedIn r) (lastLogin r) (loggedInDevices r).

Definition set_isPermanentlyLocked (v : bool) (r : UserLogin) : UserLogin :=
  mkUserLogin (user r) (username r) (password r) (refreshTokens r)
    (failedLoginAttempts r) (lockLevel r) (lockUntil r) v (isLoggedIn r)
    (lastLogin r) (loggedInDevices r).

Definition set_isLoggedIn (v : bool) (r : UserLogin) : UserLogin :=
  mkUserLogin (user r) (username r) (password r) (refreshTokens r)
    (failedLoginAttempts r) (lockLevel r) (lockUntil r)
    (isPermanentlyLocked r) v (lastLogin r) (loggedInDevices r).

Definition set_lastLogin (v : option Time) (r : UserLogin) : UserLogin :=
  mkUserLogin (user r) (username r) (password r) (refreshTokens r)
    (failedLoginAttempts r) (lockLevel r) (lockUntil r)
    (isPermanentlyLocked r) (isLoggedIn r) v (loggedInDevices r).

Definition set_loggedInDevices (v : list Device) (r : UserLogin) : UserLogin :=
  mkUserLogin (user r) (username r) (password r) (refreshTokens r)
    (failedLoginAttempts r) (lockLevel r) (lockUntil r)
    (isPermanentlyLocked r) (isLoggedIn r) (lastLogin r) v.

(** ** Methods of the model (models/userLogin.model.js) *)

(** [this.loggedInDevices.find((d) => d.deviceId === id)] *)
Definition findDevice (id : string) (ds : list Device) : option Device :=
  find (fun d => String.eqb (deviceId d) id) ds.

(** [find] hands out a reference into the array: an assignment through it
    rewrites the first device with that id, in place. *)
Fixpoint updateDevice (id : string) (f : Device -> Device) (ds : list Device) : list Device :=
  match ds with
  | [] => []
  | d :: rest =>
      if String.eqb (deviceId d) id then f d :: rest
      else d :: updateDevice id f rest
  end.

(** The clock readings of [generateRefreshToken]: inside [jwt.sign], for
    [createdAt] of the list entry, and for [loginAt] of the history entry. *)
Record IssueClock := mkIssueClock {
  at_sign : Time;
  at_created : Time;
  at_loginAt : Time
}.

(** The branch of [generateRefreshToken] that updates an existing device. *)
Definition rebind (clk : IssueClock) (tok : Token) (ip ua : option string) (d : Device) : Device :=
  mkDevice (deviceId d)
    (match truthy ip with Some a => Some a | None => ipAddress d end)
    (match truthy ua with Some a => Some a | None => userAgent d end)
    (loginCount d + 1)
    (Some tok)
    (loginHistory d ++ [mkLoginEvent (at_loginAt clk) None]).

(** The branch that creates a device entry. *)
Definition newDevice (clk : IssueClock) (tok : Token) (id : string) (ip ua : option string) : Device :=
  mkDevice id (truthy ip) (truthy ua) 1 (Some tok)
    [mkLoginEvent (at_loginAt clk) None].

Record DeviceSummary := mkDeviceSummary {
  sum_deviceId : string;
  sum_ipAddress : option string;
  sum_userAgent : option string;
  sum_loginCount : Z;
  sum_lastLogin : option Time
}.

(** [if (!lastLogin.logoutAt) lastLogin.logoutAt = new Date()] *)
Definition closeEvent (now : Time) (e : LoginEvent) : LoginEvent :=
  match logoutAt e with
  | Some _ => e
  | None => mkLoginEvent (loginAt e) (Some now)
  end.

(** The same on the last entry of a history, when there is one. *)
Fixpoint closeLast (now : Time) (h : list LoginEvent) : list LoginEvent :=
  match h with
  | [] => []
  | e :: rest =>
      match rest with
      | [] => [closeEvent now e]
      | _ :: _ => e :: closeLast now rest
      end
  end.

(** What [logoutDevice] and the loop of [logoutAllDevices] do to a device. *)
Definition signOut (now : Time) (d : Device) : Device :=
  mkDevice (deviceId d) (ipAddress d) (userAgent d) (loginCount d) None
    (closeLast now (loginHistory d)).

(** The [forEach] of [logoutAllDevices]; [now i] is the clock while the
    device at index [i] is visited. *)
Fixpoint signOutFrom (now : nat -> Time) (i : nat) (ds : list Device) : list Device :=
  match ds with
  | [] => []
  | d :: rest => signOut (now i) d :: signOutFrom now (S i) rest
  end.

(** [userLoginSchema.methods]; the first argument is [this]. *)
Module methods.

(** [this.password = plain; await this.save()] with the pre-save hook.  The
    hook hashes only when [isModified("password")]; an assignment of the
    very string that is stored does not mark the path, and the document is
    saved with the password it had. *)
Definition savePassword `{PasswordHasher} (salt plain : string) (r : UserLogin) : UserLogin :=
  if String.eqb plain (password r) then r
  else set_password (bcrypt_hash plain salt) r.

Definition comparePassword `{PasswordHasher} (r : UserLogin) (candidate : string) : bool :=
  bcrypt_compare candidate (password r).

Definition generateAccessToken `{TokenConfig} (now : Time) (r : UserLogin) : Token :=
  jwt_sign ACCESS_TOKEN_SECRET (user r) (Some (username r)) accessTokenExpiry now.

Definition generateRefreshToken `{TokenConfig} (clk : IssueClock) (r : UserLogin)
    (dev ip ua : option string) : Token * UserLogin :=
  let token := jwt_sign REFRESH_TOKEN_SECRET (user r) None refreshTokenExpiry (at_sign clk) in
  let r1 :=
    set_refreshTokens
      (refreshTokens r ++ [mkRefreshEntry token (or_else dev "unknown") (at_created clk)]) r in
  let r2 :=
    match truthy dev with
    | Some id =>
        match findDevice id (loggedInDevices r1) with
        | Some _ =>
            set_loggedInDevices
              (updateDevice id (rebind clk token ip ua) (loggedInDevices r1)) r1
        | None =>
            set_loggedInDevices
              (loggedInDevices r1 ++ [newDevice clk token id ip ua]) r1
        end
    | None => r1
    end in
  (token, r2).

Definition verifyRefreshTokenForDevice (r : UserLogin) (tok : Token) (dev : option string) : bool :=
  match truthy dev with
  | None => false
  | Some id =>
      match findDevice id (loggedInDevices r) with
      | None => false
      | Some d =>
          match refreshToken d with
          | Some t => Token_eqb t tok
          | None => false
          end
      end
  end.

Definition getActiveDevices (r : UserLogin) : list DeviceSummary :=
  map (fun d =>
         mkDeviceSummary (deviceId d) (ipAddress d) (userAgent d) (loginCount d)
           (option_map loginAt (last (map Some (loginHistory d)) None)))
      (loggedInDevices r).

Definition logoutDevice (now : Time) (r : UserLogin) (dev : option string) : bool * UserLogin :=
  match truthy dev with
  | None => (false, r)
  | Some id =>
      match findDevice id (loggedInDevices r) with
      | Some _ =>
          (true, set_loggedInDevices (updateDevice id (signOut now) (loggedInDevices r)) r)
      | None => (false, r)
      end
  end.

Definition logoutAllDevices (now : nat -> Time) (r : UserLogin) : UserLogin :=
  set_refreshTokens [] (set_loggedInDevices (signOutFrom now 0 (loggedInDevices r)) r).

Definition getAllRefreshTokens (r : UserLogin) : list RefreshEntry := refreshTokens r.

(** [this.refreshTokens] of a document is always an array, so the method
    filters, saves and returns [true]. *)
Definition revokeRefreshToken (r : UserLogin) (tok : Token) : bool * UserLogin :=
  (true,
   set_refreshTokens
     (filter (fun rt => negb (Token_eqb (rt_token rt) tok)) (refreshTokens r)) r).

End methods.

(** ** The service (Backend/src/services/auth.service.js) *)

(** The errors the service throws, one constructor per message. *)
Inductive AuthError :=
| InvalidCredentials                    (* "Invalid login credentials" *)
| AccountLockedPermanent                (* "Account is permanently locked. ..." *)
| AccountLockedTemporary (minutes : Z)  (* "Account is locked. Try again in N minutes." *)
| AssociatedUserNotFound                (* "Associated user not found" *)
| LoginDisabled                         (* "User is not allowed to login" *)
| UserNotFound                          (* "User not found" *)
| DeviceNotFound                        (* "Device not found" *)
| DeviceTokenMismatch                   (* "Invalid refresh token for this device" *)
| RefreshTokenExpired                   (* "Refresh token has expired. Please login again." *)
| RefreshTokenInvalid                   (* the message of the JsonWebTokenError *)
| TokenNotFound                         (* "Token not found" *)
| CurrentPasswordIncorrect              (* "Current password is incorrect" *)
| AccessTokenExpired                    (* "Access token has expired" *)
| AccessTokenInvalid.                   (* "Invalid access token" *)

Record LoginResult := mkLoginResult {
  res_user : User;
  res_accessToken : Token;
  res_refreshToken : Token;
  res_forcePasswordChange : bool;
  res_deviceId : option string
}.

Record RefreshResult := mkRefreshResult {
  new_accessToken : Token;
  new_refreshToken : Token
}.

(** The clock readings of [login], in program order: the test
    [new Date() < lockUntil], the subtraction [lockUntil - new Date()],
    [Date.now()] when the lock is set, [new Date()] for [lastLogin], the
    signature of the access token, and those of [generateRefreshToken]. *)
Record LoginClock := mkLoginClock {
  at_lockTest : Time;
  at_lockRemaining : Time;
  at_lockStart : Time;
  at_lastLogin : Time;
  at_access : Time;
  at_issue : IssueClock
}.

Record RefreshClock := mkRefreshClock {
  at_verify : Time;
  at_newAccess : Time;
  at_newIssue : IssueClock
}.

Module authService.

(** What a method resolves or throws, and the stored document afterwards. *)
Definition Outcome (A : Type) : Type := (AuthError + A) * option UserLogin.

(** [if (!userLogin) throw new Error(...)], then the rest of the method on
    the document. *)
Definition found_or {A : Type} (e : AuthError) (found : option UserLogin)
    (k : UserLogin -> (AuthError + A) * UserLogin) : Outcome A :=
  match found with
  | None => (inl e, None)
  | Some userLogin => let (res, saved) := k userLogin in (res, Some saved)
  end.

(** [userLogin.lockUntil && new Date() < userLogin.lockUntil] *)
Definition lockPending (now : Time) (userLogin : UserLogin) : bool :=
  match lockUntil userLogin with
  | Some t => now <? t
  | None => false
  end.

(** [Math.ceil((userLogin.lockUntil - new Date()) / (1000 * 60))] *)
Definition remainingTime (now : Time) (userLogin : UserLogin) : Z :=
  match lockUntil userLogin with
  | Some t => ceil_div (t - now) (1000 * 60)
  | None => 0
  end.

(** The branch of [login] taken when the password does not verify. *)
Definition countFailure (now : Time) (userLogin : UserLogin) : UserLogin :=
  let r1 := set_failedLoginAttempts (failedLoginAttempts userLogin + 1) userLogin in
  if 5 <=? failedLoginAttempts r1
  then set_lockUntil (Some (now + 15 * 60 * 1000)) (set_lockLevel 1 r1)
  else r1.

(** The five assignments of [login] after the checks have passed. *)
Definition resetOnSuccess (now : Time) (userLogin : UserLogin) : UserLogin :=
  set_lastLogin (Some now)
    (set_isLoggedIn true
       (set_lockUntil None
          (set_lockLevel 0
             (set_failedLoginAttempts 0 userLogin)))).

(** [found] is the document the lookups of [login] end with (by username,
    else through the [User] with that userId or email); [account] is
    [User.findById(userLogin.user)]. *)
Definition login `{PasswordHasher} `{TokenConfig} (clk : LoginClock)
    (found : option UserLogin) (account : option User)
    (pw : string) (dev ip ua : option string) : Outcome LoginResult :=
  found_or InvalidCredentials found (fun userLogin =>
    if isPermanentlyLocked userLogin then (inl AccountLockedPermanent, userLogin)
    else if lockPending (at_lockTest clk) userLogin then
      (inl (AccountLockedTemporary (remainingTime (at_lockRemaining clk) userLogin)),
       userLogin)
    else if negb (methods.comparePassword userLogin pw) then
      (inl InvalidCredentials, countFailure (at_lockStart clk) userLogin)
    else
      match account with
      | None => (inl AssociatedUserNotFound, userLogin)
      | Some u =>
          if negb (canLogin u) || negb (isActive u) then (inl LoginDisabled, userLogin)
          else
            let r1 := resetOnSuccess (at_lastLogin clk) userLogin in
            let accessToken := methods.generateAccessToken (at_access clk) r1 in
            let (refreshToken, r2) := methods.generateRefreshToken (at_issue clk) r1 dev ip ua in
            (* [forcePasswordChange] is no path of the schema *)
            (inr (mkLoginResult u accessToken refreshToken false dev), r2)
      end).

(** [loggedInDevices.filter((d) => d.refreshToken !== null)] *)
Definition activeDevices (userLogin : UserLogin) : list Device :=
  filter (fun d => match refreshToken d with Some _ => true | None => false end)
    (loggedInDevices userLogin).

Definition logout (now : Time) (found : option UserLogin) (dev : option string) : Outcome unit :=
  found_or UserNotFound found (fun userLogin =>
    let (logoutSuccess, r1) := methods.logoutDevice now userLogin dev in
    if negb logoutSuccess then (inl DeviceNotFound, userLogin)
    else
      (inr tt,
       if (List.length (activeDevices r1) =? 0)%nat then set_isLoggedIn false r1 else r1)).

Definition logoutAllDevices (now : nat -> Time) (found : option UserLogin) : Outcome unit :=
  found_or UserNotFound found (fun userLogin =>
    (inr tt, set_isLoggedIn false (methods.logoutAllDevices now userLogin))).

(** [found] is the result of [UserLogin.findById(decoded.id)]; a token that
    does not verify is thrown before any lookup.  [refreshTokensIn] below
    makes the lookup. *)
Definition refreshTokens `{TokenConfig} (clk : RefreshClock)
    (found : option UserLogin) (refreshToken : Token) (dev : option string)
    : Outcome RefreshResult :=
  match jwt_verify REFRESH_TOKEN_SECRET refreshToken (at_verify clk) with
  | inl TokenExpiredError => (inl RefreshTokenExpired, found)
  | inl JsonWebTokenError => (inl RefreshTokenInvalid, found)
  | inr _ =>
      found_or UserNotFound found (fun userLogin =>
        if negb (methods.verifyRefreshTokenForDevice userLogin refreshToken dev)
        then (inl DeviceTokenMismatch, userLogin)
        else
          let newAccessToken := methods.generateAccessToken (at_newAccess clk) userLogin in
          let (newRefreshToken, r1) :=
            methods.generateRefreshToken (at_newIssue clk) userLogin dev None None in
          (inr (mkRefreshResult newAccessToken newRefreshToken), r1))
  end.

Definition getActiveDevices (found : option UserLogin) : Outcome (list DeviceSummary) :=
  found_or UserNotFound found (fun userLogin =>
    (inr (methods.getActiveDevices userLogin), userLogin)).

Definition revokeToken (found : option UserLogin) (token : Token) : Outcome unit :=
  found_or UserNotFound found (fun userLogin =>
    let (revoked, r1) := methods.revokeRefreshToken userLogin token in
    if negb revoked then (inl TokenNotFound, userLogin) else (inr tt, r1)).

(** The reason only appears in the message that is returned. *)
Definition lockAccount (now : nat -> Time) (found : option UserLogin) (reason : string)
    : Outcome string :=
  found_or UserNotFound found (fun userLogin =>
    (inr ("Account locked. Reason: " ++ reason)%string,
     methods.logoutAllDevices now
       (set_isLoggedIn false (set_isPermanentlyLocked true userLogin)))).

Definition unlockAccount (found : option UserLogin) : Outcome unit :=
  found_or UserNotFound found (fun userLogin =>
    (inr tt,
     set_lockUntil None
       (set_lockLevel 0
          (set_failedLoginAttempts 0
             (set_isPermanentlyLocked false userLogin))))).

(** [salt] is the [genSalt(10)] of the pre-save hook. *)
Definition changePassword `{PasswordHasher} (salt : string) (now : nat -> Time)
    (found : option UserLogin) (oldPassword newPassword : string) : Outcome unit :=
  found_or UserNotFound found (fun userLogin =>
    if negb (methods.comparePassword userLogin oldPassword)
    then (inl CurrentPasswordIncorrect, userLogin)
    else
      let r1 := methods.savePassword salt newPassword userLogin in
      (inr tt, set_isLoggedIn false (methods.logoutAllDevices now r1))).

Definition validateAccessToken (now : Time) (token : Token) : AuthError + Claims :=
  match jwt_verify ACCESS_TOKEN_SECRET token now with
  | inl TokenExpiredError => inl AccessTokenExpired
  | inl JsonWebTokenError => inl AccessTokenInvalid
  | inr decoded => inr decoded
  end.

End authService.

(** ** The collection of [UserLogin] documents *)

(** Every document is stored under its own [_id]; [user] is a path of the
    document, the [_id] of the [User] it belongs to. *)
Definition Collection := list (ObjectId * UserLogin).

Module UserLogins.

(** [UserLogin.findById(id)]: the document whose [_id] is [id]. *)
Definition findById (id : ObjectId) (c : Collection) : option UserLogin :=
  option_map snd (find (fun e => fst e =? id) c).

(** [UserLogin.findOne({ user: userId })] *)
Definition findOneByUser (userId : ObjectId) (c : Collection) : option UserLogin :=
  option_map snd (find (fun e => user (snd e) =? userId) c).

(** [UserLogin.findOne({ username: name })] *)
Definition findOneByUsername (name : string) (c : Collection) : option UserLogin :=
  option_map snd (find (fun e => String.eqb (username (snd e)) name) c).

(** [save()] of the document that was loaded from under [id]. *)
Fixpoint save (id : ObjectId) (doc : UserLogin) (c : Collection) : Collection :=
  match c with
  | [] => []
  | e :: rest =>
      if fst e =? id then (id, doc) :: rest else e :: save id doc rest
  end.

End UserLogins.

(** [authService.refreshTokens(refreshToken, deviceId)] on a collection:
    the lookup is [UserLogin.findById(decoded.id)], where [decoded.id] is
    the [id] claim of the token, the [user] of the document that signed it. *)
Definition refreshTokensIn `{TokenConfig} (clk : RefreshClock) (c : Collection)
    (refreshToken : Token) (dev : option string)
    : authService.Outcome RefreshResult :=
  authService.refreshTokens clk
    (match jwt_verify REFRESH_TOKEN_SECRET refreshToken (at_verify clk) with
     | inr decoded => UserLogins.findById (jwt_id decoded) c
     | inl _ => None
     end)
    refreshToken dev.

(** No document of the collection is stored under [id]. *)
Definition noDocumentUnder (id : ObjectId) (c : Collection) : Prop :=
  forall e, In e c -> fst e <> id.

(** ** Runs of the service on one document *)

(** The arguments of one call of [authService.login]. *)
Record Attempt := mkAttempt {
  att_clock : LoginClock;
  att_account : option User;
  att_password : string;
  att_deviceId : option string;
  att_ipAddress : option string;
  att_userAgent : option string
}.

(** The stored document after a call that started from [r]. *)
Definition stored {A : Type} (r : UserLogin) (o : authService.Outcome A) : UserLogin :=
  match snd o with
  | Some saved => saved
  | None => r
  end.

(** One call of [login] that finds [r]. *)
Definition attempt `{PasswordHasher} `{TokenConfig} (a : Attempt) (r : UserLogin)
    : (AuthError + LoginResult) * UserLogin :=
  let o := authService.login (att_clock a) (Some r) (att_account a) (att_password a)
             (att_deviceId a) (att_ipAddress a) (att_userAgent a) in
  (fst o, stored r o).

(** Calls of [login] one after the other, each on the document the
    previous one stored. *)
Fixpoint logins `{PasswordHasher} `{TokenConfig} (l : list Attempt) (r : UserLogin)
    : list (AuthError + LoginResult) * UserLogin :=
  match l with
  | [] => ([], r)
  | a :: rest =>
      let (res, r1) := attempt a r in
      let (more, r2) := logins rest r1 in
      (res :: more, r2)
  end.

(** The operations of the service that write a document. *)
Inductive Operation :=
| Login (a : Attempt)
| Refresh (clk : RefreshClock) (refreshToken : Token) (dev : option string)
| Logout (now : Time) (dev : option string)
| LogoutAll (now : nat -> Time)
| Revoke (token : Token)
| ChangePassword (salt : string) (now : nat -> Time) (oldPassword newPassword : string)
| LockAccount (now : nat -> Time) (reason : string)
| UnlockAccount.

Definition isRevoke (op : Operation) : bool :=
  match op with
  | Revoke _ => true
  | _ => false
  end.

(** The document stored after [op] ran on the document [r]. *)
Definition perform `{PasswordHasher} `{TokenConfig} (op : Operation) (r : UserLogin) : UserLogin :=
  match op with
  | Login a => snd (attempt a r)
  | Refresh clk tok dev => stored r (authService.refreshTokens clk (Some r) tok dev)
  | Logout now dev => stored r (authService.logout now (Some r) dev)
  | LogoutAll now => stored r (authService.logoutAllDevices now (Some r))
  | Revoke tok => stored r (authService.revokeToken (Some r) tok)
  | ChangePassword salt now old new =>
      stored r (authService.changePassword salt now (Some r) old new)
  | LockAccount now reason => stored r (authService.lockAccount now (Some r) reason)
  | UnlockAccount => stored r (authService.unlockAccount (Some r))
  end.

(** ** Predicates of the data model *)

(** [t] is the token of an entry of [refreshTokens]. *)
Definition listed (r : UserLogin) (t : Token) : Prop :=
  exists e, In e (refreshTokens r) /\ rt_token e = t.

(** Every token a device holds is listed. *)
Definition boundTokensListed (r : UserLogin) : Prop :=
  forall d t, In d (loggedInDevices r) -> refreshToken d = Some t -> listed r t.

(** The same, as a test. *)
Definition boundTokensListedb (r : UserLogin) : bool :=
  forallb
    (fun d =>
       match refreshToken d with
       | Some t => existsb (fun e => Token_eqb (rt_token e) t) (refreshTokens r)
       | None => true
       end)
    (loggedInDevices r).

(** [dev] resolves to the device session [d]: it is present and not empty,
    and [d] is the first session of the document with that id. *)
Definition resolvesTo (r : UserLogin) (dev : option string) (d : Device) : Prop :=
  exists id before after,
    dev = Some id /\ id <> "" /\
    loggedInDevices r = before ++ d :: after /\
    deviceId d = id /\
    Forall (fun x => deviceId x <> id) before.

(** The ids of the device sessions are distinct and not empty. *)
Definition distinctDevices (r : UserLogin) : Prop :=
  NoDup (map deviceId (loggedInDevices r)) /\
  Forall (fun d => deviceId d <> "") (loggedInDevices r).

(** No device session holds a token. *)
Definition allSignedOut (r : UserLogin) : Prop :=
  forall d, In d (loggedInDevices r) -> refreshToken d = None.

(** ** Example data *)

(** A hasher for the examples: the stored value is the password itself. *)
Definition clearTextHasher : PasswordHasher :=
  {| bcrypt_hash := fun plain _ => plain;
     bcrypt_compare := fun candidate hash => String.eqb candidate hash |}.

(** The document of alice right after her credentials were created. *)
Definition alice : UserLogin :=
  mkUserLogin 7 "alice" "p@ss1" [] 0 0 None false false None [].

Definition aliceAccount : User := mkUser true true.

(** A clock that reads [t] everywhere. *)
Definition issueAt (t : Time) : IssueClock := mkIssueClock t t t.
Definition loginAt_ (t : Time) : LoginClock := mkLoginClock t t t t t (issueAt t).
Definition refreshAt (t : Time) : RefreshClock := mkRefreshClock t t (issueAt t).

Definition attemptAt (t : Time) (pw : string) (dev : option string) : Attempt :=
  mkAttempt (loginAt_ t) (Some aliceAccount) pw dev None None.

(** Alice after a login from ["dev-A"] at [t0], and the token she got. *)
Definition t0 : Time := 1700000000000.

Definition aliceOnDevA : UserLogin :=
  snd (@attempt clearTextHasher defaultTokenConfig (attemptAt t0 "p@ss1" (Some "dev-A")) alice).

Definition T1 : Token :=
  Signed REFRESH_TOKEN_SECRET (mkClaims 7 None 1700000000 1700604800).

(** The collection with the document of alice alone, under the [_id] the
    store gave it when her credentials were created. *)
Definition aliceId : ObjectId := 101.
Definition aliceStore : Collection := [(aliceId, alice)].



(** ** Further predicates and observations *)

(** What [getActiveDevices] reports as [lastLogin]: [loginAt] of the last
    history entry. *)
Definition lastLoginAt (h : list LoginEvent) : option Time :=
  option_map loginAt (last (map Some h) None).


(** The lock fields agree with the counter: below five failures there is
    no lock at all, from five on [lockLevel] is 1 and [lockUntil] is set. *)
Definition lockConsistent (r : UserLogin) : Prop :=
  0 <= failedLoginAttempts r /\
  ((failedLoginAttempts r < 5 /\ lockLevel r = 0 /\ lockUntil r = None) \/
   (5 <= failedLoginAttempts r /\ lockLevel r = 1 /\ lockUntil r <> None)).

(** A document that says it is not logged in holds no device token. *)
Definition noTokenWhenLoggedOut (r : UserLogin) : Prop :=
  isLoggedIn r = false -> allSignedOut r.

(** The document [new UserLogin({user, username, password})] is once it
    is saved: the schema defaults, and the hash the pre-save hook stored. *)
Definition newUserLogin (userId : ObjectId) (name hash : string) : UserLogin :=
  mkUserLogin userId name hash [] 0 0 None false false None [].

(** The writes an operation of the service can end with, on a document
    [r] that it found: nothing, a counted failure, a token issued by a login
    or by a refresh, one device or all devices signed out, the permanent
    lock, a revocation, the unlock. *)
Inductive Written `{TokenConfig} (r : UserLogin) : UserLogin -> Prop :=
| WrittenNothing : Written r r
| WrittenFailure now : Written r (authService.countFailure now r)
| WrittenLogin now clk dev ip ua :
    Written r (snd (methods.generateRefreshToken clk
                      (authService.resetOnSuccess now r) dev ip ua))
| WrittenRefresh clk tok dev :
    methods.verifyRefreshTokenForDevice r tok dev = true ->
    Written r (snd (methods.generateRefreshToken clk r dev None None))
| WrittenLogout now dev (keep : bool) :
    fst (methods.logoutDevice now r dev) = true ->
    (allSignedOut (snd (methods.logoutDevice now r dev)) \/ keep = true) ->
    Written r (if keep then snd (methods.logoutDevice now r dev)
               else set_isLoggedIn false (snd (methods.logoutDevice now r dev)))
| WrittenLogoutAll now :
    Written r (set_isLoggedIn false (methods.logoutAllDevices now r))
| WrittenPassword now hash :
    Written r (set_isLoggedIn false (methods.logoutAllDevices now (set_password hash r)))
| WrittenLock now :
    Written r (methods.logoutAllDevices now
                 (set_isLoggedIn false (set_isPermanentlyLocked true r)))
| WrittenRevoke tok : Written r (snd (methods.revokeRefreshToken r tok))
| WrittenUnlock :
    Written r (set_lockUntil None (set_lockLevel 0 (set_failedLoginAttempts 0
                 (set_isPermanentlyLocked false r)))).


(** ** utils/tokenUtils.js *)

(** The string without its last character, and that character. *)
Fixpoint unsnoc (s : string) : option (string * ascii) :=
  match s with
  | EmptyString => None
  | String c rest =>
      match unsnoc rest with
      | None => Some (EmptyString, c)
      | Some (init, l) => Some (String c init, l)
      end
  end.

(** The [switch (unit.toLowerCase())] on a letter matched by [[mhd]] without
    regard to case: the milliseconds of one unit. *)
Definition unitMs (unit : ascii) : option Z :=
  if Ascii.eqb unit "m" || Ascii.eqb unit "M" then Some (60 * 1000)
  else if Ascii.eqb unit "h" || Ascii.eqb unit "H" then Some (60 * 60 * 1000)
  else if Ascii.eqb unit "d" || Ascii.eqb unit "D" then Some (24 * 60 * 60 * 1000)
  else None.

(** A natural number in decimal, as [String(n)] and template strings print
    it. *)
Definition decimal (n : N) : string := NilEmpty.string_of_uint (N.to_uint n).

(** [expiryStr.match(/^(\d+)([mhd])$/i)] with [parseInt(value, 10)] applied
    to the first group: one or more decimal digits and then one letter. *)
Definition matchExpiry (s : string) : option (N * ascii) :=
  match unsnoc s with
  | None => None
  | Some (digits, unit) =>
      if String.eqb digits "" then None
      else
        match NilEmpty.uint_of_string digits, unitMs unit with
        | Some d, Some _ => Some (N.of_uint d, unit)
        | _, _ => None
        end
  end.

(** [None] as argument is a value that is not a string, or no value; [None]
    as result is [null].  Numbers are exact here; in JavaScript they are as
    long as they stay below 2^53. *)
Definition convertExpiryToMs (expiryStr : option string) : option Z :=
  match truthy expiryStr with
  | None => None
  | Some s =>
      match matchExpiry s with
      | None => Some (7 * 24 * 60 * 60 * 1000)
      | Some (numValue, unit) =>
          match unitMs unit with
          | Some ms => Some (Z.of_N numValue * ms)
          | None => None
          end
      end
  end.

(** The arithmetic of [convertExpiryToMs] on [s] stays in the range where
    JavaScript numbers are exact: [s] is no number with a unit, or the number
    times the milliseconds of the unit is at most 2^53. *)
Definition withinExactRange (s : string) : bool :=
  match matchExpiry s with
  | Some (numValue, unit) =>
      match unitMs unit with
      | Some ms => Z.of_N numValue * ms <=? 2 ^ 53
      | None => true
      end
  | None => true
  end.

(** The variables of [process.env] that the utilities read. *)
Record Env := mkEnv {
  NODE_ENV : option string;
  ACCESS_TOKEN_EXPIRY : option string;
  REFRESH_TOKEN_EXPIRY : option string
}.

Record CookieOptions := mkCookieOptions {
  httpOnly : bool;
  secure : bool;
  sameSite : string;
  maxAge : option Z;
  cookiePath : string
}.

Definition getTokenCookieOptions (env : Env) (expiryMs : option Z) : CookieOptions :=
  mkCookieOptions true (option_string_eqb (NODE_ENV env) (Some "production"))
    "strict" expiryMs "/".

Definition getRefreshTokenCookieOptions (env : Env) : CookieOptions :=
  getTokenCookieOptions env
    (convertExpiryToMs (Some (or_else (REFRESH_TOKEN_EXPIRY env) "10d"))).

Definition getAccessTokenMaxAge (env : Env) : option Z :=
  convertExpiryToMs (Some (or_else (ACCESS_TOKEN_EXPIRY env) "15m")).

Definition getRefreshTokenMaxAge (env : Env) : option Z :=
  convertExpiryToMs (Some (or_else (REFRESH_TOKEN_EXPIRY env) "10d")).

(** ** middlewares/auth.middleware.js *)

(** The fields of the [User] document that the middleware reads, next to
    those that [login] reads. *)
Record UserDoc := mkUserDoc {
  doc_flags : User;
  isBlocked : bool;
  role : string
}.

(** [req.user] as [verifyJWT] attaches it. *)
Record ReqUser := mkReqUser {
  req_id : ObjectId;
  req_username : option string;
  req_doc : UserDoc
}.

Inductive MwMessage :=
| AccessTokenMissing        (* "Access token is missing" *)
| SecretNotConfigured       (* "ACCESS_TOKEN_SECRET is not configured" *)
| AccessTokenHasExpired     (* "Access token has expired" *)
| AccessTokenRejected       (* the message of the JsonWebTokenError *)
| RequestUserNotFound       (* "User not found" *)
| UserLoginDisabled         (* "User login is disabled" *)
| UserAccountBlocked        (* "User account is blocked" *)
| AdminRequired             (* "Admin access required" *)
| SuperAdminRequired        (* "Super Admin access required" *)
| EnterpriseAdminRequired.  (* "Enterprise Admin access required" *)

(** A middleware ends the request with a status, or calls [next()]. *)
Inductive MwReply :=
| MwStatus (code : Z) (message : MwMessage)
| MwNext (reqUser : option ReqUser).

(** A token string that is truthy. *)
Definition truthyToken (t : option Token) : option Token :=
  match t with
  | Some (Foreign s) => if String.eqb s "" then None else t
  | _ => t
  end.

(** [token] is the value of the header, cookie, body chain at the top of
    the function; [secretSet] says whether [ACCESS_TOKEN_SECRET] is set;
    [findUser] is [User.findById]. *)
Definition verifyJWT (secretSet : bool) (now : Time) (token : option Token)
    (findUser : ObjectId -> option UserDoc) : MwReply :=
  match truthyToken token with
  | None => MwStatus 401 AccessTokenMissing
  | Some t =>
      if negb secretSet then MwStatus 401 SecretNotConfigured
      else
        match jwt_verify ACCESS_TOKEN_SECRET t now with
        | inl TokenExpiredError => MwStatus 401 AccessTokenHasExpired
        | inl JsonWebTokenError => MwStatus 401 AccessTokenRejected
        | inr decoded =>
            match findUser (jwt_id decoded) with
            | None => MwStatus 401 RequestUserNotFound
            | Some u =>
                if negb (canLogin (doc_flags u)) then MwStatus 403 UserLoginDisabled
                else if isBlocked u then MwStatus 403 UserAccountBlocked
                else MwNext (Some (mkReqUser (jwt_id decoded) (jwt_username decoded) u))
            end
        end
  end.

(** [req.user?.role], tested for truthiness. *)
Definition roleOf (reqUser : option ReqUser) : option string :=
  truthy (option_map (fun u => role (req_doc u)) reqUser).

(** [list.includes(x)] *)
Definition includes (l : list string) (x : string) : bool :=
  existsb (String.eqb x) l.

Definition verifyAdmin (reqUser : option ReqUser) : MwReply :=
  match roleOf reqUser with
  | Some x =>
      if includes ["admin"; "super_admin"; "enterprise_admin"] x
      then MwNext reqUser else MwStatus 403 AdminRequired
  | None => MwStatus 403 AdminRequired
  end.

Definition verifySuperAdmin (reqUser : option ReqUser) : MwReply :=
  match roleOf reqUser with
  | Some x =>
      if includes ["super_admin"; "enterprise_admin"] x
      then MwNext reqUser else MwStatus 403 SuperAdminRequired
  | None => MwStatus 403 SuperAdminRequired
  end.

(** [req.user?.role !== "enterprise_admin"] *)
Definition verifyEnterpriseAdmin (reqUser : option ReqUser) : MwReply :=
  match option_map (fun u => role (req_doc u)) reqUser with
  | Some x =>
      if String.eqb x "enterprise_admin"
      then MwNext reqUser else MwStatus 403 EnterpriseAdminRequired
  | None => MwStatus 403 EnterpriseAdminRequired
  end.

(** ** controllers/auth.controller.js and the routes *)

(** A property of [req.body]: not there, [null], or a string. *)
Inductive BodyField := Absent | Null | Text (s : string).

(** [const { field = dflt } = req.body]: the default stands in for a
    property that is [undefined] only. *)
Definition defaultTo (dflt : string) (v : BodyField) : option string :=
  match v with
  | Absent => Some dflt
  | Null => None
  | Text s => Some s
  end.

(** What a controller ends with: the response it sends, an [apiError] it
    throws itself, or the error of the service. *)
Inductive Reply (A : Type) :=
| Sent (body : A)
| ApiError (status : Z) (message : string)
| Thrown (e : AuthError).

Arguments Sent {A} body.
Arguments ApiError {A} status message.
Arguments Thrown {A} e.

Definition replyOf {A : Type} (o : authService.Outcome A) : Reply A * option UserLogin :=
  match fst o with
  | inr body => (Sent body, snd o)
  | inl e => (Thrown e, snd o)
  end.

Module authController.

(** [uuid] is the value [uuidv4()] returns in the default of [deviceId];
    [ip] and [ua] are the address and the user agent read off the request. *)
Definition loginController `{PasswordHasher} `{TokenConfig} (uuid : string)
    (clk : LoginClock) (found : option UserLogin) (account : option User)
    (loginId password : option string) (deviceId : BodyField)
    (ip ua : option string) : Reply LoginResult * option UserLogin :=
  match truthy loginId, truthy password with
  | Some _, Some pw =>
      replyOf (authService.login clk found account pw (defaultTo uuid deviceId) ip ua)
  | _, _ =>
      (ApiError 400 "Login ID (username/userId/email) and password are required", found)
  end.

(** [cookieToken] and [bodyToken] are [req.cookies?.refreshToken] and
    [req.body?.refreshToken]. *)
Definition refreshTokenController `{TokenConfig} (uuid : string)
    (clk : RefreshClock) (found : option UserLogin)
    (cookieToken bodyToken : option Token) (deviceId : BodyField)
    : Reply RefreshResult * option UserLogin :=
  match
    match truthyToken cookieToken with
    | Some t => Some t
    | None => truthyToken bodyToken
    end
  with
  | None => (ApiError 401 "Refresh token is required", found)
  | Some refreshToken =>
      replyOf (authService.refreshTokens clk found refreshToken (defaultTo uuid deviceId))
  end.

(** [findLogin] is [UserLogin.findOne({ user: userId })]; a [reason] that
    is not given is the default of the service. *)
Definition lockAccountController (nows : nat -> Time)
    (findLogin : ObjectId -> option UserLogin)
    (userId : option ObjectId) (reason : option string)
    : Reply string * option UserLogin :=
  match userId with
  | None => (ApiError 400 "User ID is required", None)
  | Some id =>
      replyOf (authService.lockAccount nows (findLogin id)
                 (match reason with Some x => x | None => "Manual lock by admin" end))
  end.

End authController.

(** [router.post("/lock-account", verifyJWT, lockAccountController)]: the
    controller runs when the middleware calls [next()]. *)
Definition postLockAccount (secretSet : bool) (now : Time) (token : option Token)
    (findUser : ObjectId -> option UserDoc) (nows : nat -> Time)
    (findLogin : ObjectId -> option UserLogin)
    (userId : option ObjectId) (reason : option string)
    : MwReply + Reply string * option UserLogin :=
  match verifyJWT secretSet now token findUser with
  | MwNext _ => inr (authController.lockAccountController nows findLogin userId reason)
  | MwStatus code message => inl (MwStatus code message)
  end.

(** ** controllers/user.controller.js: the username of new credentials *)

(** The loop of [createUserLoginCredentials] that looks for a free
    username: [taken] are the usernames of the collection, [username] the
    candidate that is tried, [suffix] the number that was last appended. *)
Fixpoint pickUsername (taken : list string) (baseUsername : string)
    (fuel : nat) (suffix : N) (username : string) : option string :=
  match fuel with
  | O => None
  | S fuel' =>
      if existsb (String.eqb username) taken
      then pickUsername taken baseUsername fuel' (suffix + 1)
             (baseUsername ++ decimal (suffix + 1))
      else Some username
  end.

(** The candidate the loop tries after [k] rounds. *)
Definition candidate (baseUsername : string) (k : N) : string :=
  if (k =? 0)%N then baseUsername else (baseUsername ++ decimal k)%string.

Inductive Creation :=
| Created (username : string) (login : UserLogin)
| CreationFailed   (* the [apiError] 500 that wraps an error of [save] *)
| StillLooking.    (* the loop has not ended within the fuel *)

(** The end of [createUserLoginCredentials], from the sanitized
    [baseUsername] on.  [logins] is the collection: [save] fails on a
    username that is empty ([required]) and on a user that has credentials
    already ([unique]).  [defaultPassword] is [process.env.DEFAULT_PASSWORD]
    and [salt] the salt of the pre-save hook. *)
Definition createUserLoginCredentials `{PasswordHasher} (logins : list UserLogin)
    (fuel : nat) (salt : string) (defaultPassword : option string)
    (userId : ObjectId) (baseUsername : string) : Creation :=
  match pickUsername (map username logins) baseUsername fuel 0 baseUsername with
  | None => StillLooking
  | Some name =>
      if String.eqb name "" || existsb (fun l => user l =? userId) logins
      then CreationFailed
      else
        Created name
          (newUserLogin userId name
             (bcrypt_hash (or_else defaultPassword "12345678") salt))
  end.

(** ** Further example data *)

(** What the login of alice from "dev-A" at [t0] returns. *)
Definition aliceLoginResult : LoginResult :=
  mkLoginResult aliceAccount
    (Signed ACCESS_TOKEN_SECRET (mkClaims 7 (Some "alice") 1700000000 1700000900))
    T1 false (Some "dev-A").

(** * Properties *)

(** ** Token equality *)

Lemma option_string_eqb_eq (a b : option string) :
  option_string_eqb a b = true <-> a = b.
Proof.
  destruct a as [x|], b as [y|]; simpl; try (split; congruence).
  rewrite String.eqb_eq. split; congruence.
Qed.

Lemma Claims_eqb_eq (a b : Claims) : Claims_eqb a b = true <-> a = b.
Proof.
  destruct a as [i u t e], b as [i' u' t' e']; unfold Claims_eqb; simpl.
  rewrite !andb_true_iff, !Z.eqb_eq, option_string_eqb_eq.
  split.
  - intros [[[-> ->] ->] ->]. reflexivity.
  - intros E. injection E as -> -> -> ->. auto.
Qed.

Lemma Secret_eqb_eq (a b : Secret) : Secret_eqb a b = true <-> a = b.
Proof. destruct a, b; simpl; split; congruence. Qed.

Lemma Token_eqb_eq (a b : Token) : Token_eqb a b = true <-> a = b.
Proof.
  destruct a as [k x|x], b as [k' y|y]; simpl; try (split; congruence).
  - rewrite andb_true_iff, Secret_eqb_eq, Claims_eqb_eq. split.
    + intros [-> ->]. reflexivity.
    + intros E. injection E as -> ->. auto.
  - rewrite String.eqb_eq. split; congruence.
Qed.

Lemma Token_eqb_refl (a : Token) : Token_eqb a a = true.
Proof. apply Token_eqb_eq. reflexivity. Qed.

Lemma Token_eqb_neq (a b : Token) : Token_eqb a b = false <-> a <> b.
Proof.
  rewrite <- Token_eqb_eq. destruct (Token_eqb a b); split; congruence.
Qed.

(** ** Truthiness *)

Lemma truthy_Some (x : option string) (s : string) :
  truthy x = Some s <-> x = Some s /\ s <> "".
Proof.
  unfold truthy. destruct x as [y|].
  - destruct (String.eqb_spec y "") as [E|E]; split.
    + congruence.
    + intros [[= ->] N]. contradiction.
    + intros [= ->]. auto.
    + intros [[= ->] _]. reflexivity.
  - split; [congruence | intros [E _]; congruence].
Qed.

Lemma truthy_None (x : option string) :
  truthy x = None <-> x = None \/ x = Some "".
Proof.
  unfold truthy. destruct x as [y|].
  - destruct (String.eqb_spec y "") as [E|E]; split.
    + intros _. subst. auto.
    + reflexivity.
    + intros D. congruence.
    + intros [D|D]; congruence.
  - split; auto.
Qed.

(** ** The device array *)

Lemma findDevice_In (id : string) (ds : list Device) (d : Device) :
  findDevice id ds = Some d -> In d ds /\ deviceId d = id.
Proof.
  unfold findDevice. intros F. apply find_some in F.
  destruct F as [I E]. apply String.eqb_eq in E. auto.
Qed.

Lemma findDevice_None (id : string) (ds : list Device) :
  findDevice id ds = None <-> Forall (fun x => deviceId x <> id) ds.
Proof.
  unfold findDevice. induction ds as [|x rest IH]; simpl.
  - split; auto.
  - destruct (String.eqb_spec (deviceId x) id) as [E|E]; split.
    + discriminate.
    + intros F. inversion F; subst. contradiction.
    + intros F. constructor; [exact E | apply IH, F].
    + intros F. inversion F; subst. apply IH. assumption.
Qed.

(** [find] returns the first device with the id: nothing before it has it. *)
Lemma findDevice_first (id : string) (ds : list Device) (d : Device) :
  findDevice id ds = Some d <->
  exists before after,
    ds = before ++ d :: after /\ deviceId d = id /\
    Forall (fun x => deviceId x <> id) before.
Proof.
  unfold findDevice. induction ds as [|x rest IH]; simpl.
  - split; [discriminate|]. intros (b & a & E & _). destruct b; discriminate.
  - destruct (String.eqb_spec (deviceId x) id) as [E|E]; split.
    + intros [= ->]. exists [], rest. simpl. auto.
    + intros (b & a & L & Ed & F). destruct b as [|y b]; simpl in L.
      * congruence.
      * injection L as -> _. inversion F; subst. contradiction.
    + intros S. apply IH in S. destruct S as (b & a & -> & Ed & F).
      exists (x :: b), a. simpl. auto.
    + intros (b & a & L & Ed & F). destruct b as [|y b]; simpl in L.
      * injection L as -> _. contradiction.
      * injection L as -> L. inversion F; subst.
        apply IH. exists b, a. auto.
Qed.

Lemma findDevice_updateDevice (id : string) (f : Device -> Device) (ds : list Device) :
  (forall d, deviceId (f d) = deviceId d) ->
  findDevice id (updateDevice id f ds) = option_map f (findDevice id ds).
Proof.
  intros K. unfold findDevice. induction ds as [|x rest IH]; simpl; [reflexivity|].
  destruct (String.eqb_spec (deviceId x) id) as [E|E]; simpl.
  - rewrite K. rewrite <- E. rewrite String.eqb_refl. reflexivity.
  - destruct (String.eqb_spec (deviceId x) id); [contradiction | exact IH].
Qed.

Lemma In_updateDevice (id : string) (f : Device -> Device) (ds : list Device) (x : Device) :
  In x (updateDevice id f ds) -> In x ds \/ exists d, In d ds /\ x = f d.
Proof.
  induction ds as [|y rest IH]; simpl; [tauto|].
  destruct (String.eqb (deviceId y) id); simpl.
  - intros [<-|I]; [right; exists y; auto | auto].
  - intros [<-|I]; [auto|]. destruct (IH I) as [J|(d & J & E)]; [auto|].
    right. exists d. auto.
Qed.

Lemma map_deviceId_updateDevice (id : string) (f : Device -> Device) (ds : list Device) :
  (forall d, deviceId (f d) = deviceId d) ->
  map deviceId (updateDevice id f ds) = map deviceId ds.
Proof.
  intros K. induction ds as [|y rest IH]; simpl; [reflexivity|].
  destruct (String.eqb (deviceId y) id); simpl; [rewrite K | rewrite IH]; reflexivity.
Qed.

Lemma findDevice_app_new (id : string) (ds : list Device) (d : Device) :
  findDevice id ds = None -> deviceId d = id ->
  findDevice id (ds ++ [d]) = Some d.
Proof.
  unfold findDevice. intros N E. induction ds as [|y rest IH]; simpl in *.
  - rewrite E, String.eqb_refl. reflexivity.
  - destruct (String.eqb (deviceId y) id); [discriminate | auto].
Qed.

(** ** Resolution of a device id *)

Lemma resolvesTo_find (r : UserLogin) (dev : option string) (d : Device) :
  resolvesTo r dev d <->
  exists id, truthy dev = Some id /\ findDevice id (loggedInDevices r) = Some d.
Proof.
  unfold resolvesTo. split.
  - intros (id & b & a & -> & N & L & E & F). exists id. split.
    + apply truthy_Some. auto.
    + apply findDevice_first. exists b, a. auto.
  - intros (id & T & F). apply truthy_Some in T. destruct T as [-> N].
    apply findDevice_first in F. destruct F as (b & a & L & E & F).
    exists id, b, a. auto.
Qed.

(** With distinct ids, the session an id resolves to is the session of the
    array that carries it. *)
Lemma resolvesTo_distinct (r : UserLogin) (dev : option string) (d : Device) :
  distinctDevices r ->
  (resolvesTo r dev d <-> In d (loggedInDevices r) /\ dev = Some (deviceId d)).
Proof.
  intros [ND NE]. rewrite resolvesTo_find. split.
  - intros (id & T & F). apply truthy_Some in T. destruct T as [-> _].
    apply findDevice_In in F. destruct F as [I <-]. auto.
  - intros [I ->]. exists (deviceId d). split.
    + apply truthy_Some. split; [reflexivity|].
      rewrite Forall_forall in NE. apply NE. exact I.
    + apply findDevice_first. apply in_split in I. destruct I as (b & a & L).
      exists b, a. repeat split; auto.
      rewrite L, map_app in ND. simpl in ND. apply NoDup_remove_2 in ND.
      apply Forall_forall. intros x Ix E. apply ND. apply in_or_app. left.
      rewrite <- E. apply in_map. exact Ix.
Qed.

Lemma verify_resolves (r : UserLogin) (tok : Token) (dev : option string) :
  methods.verifyRefreshTokenForDevice r tok dev = true <->
  exists d, resolvesTo r dev d /\ refreshToken d = Some tok.
Proof.
  unfold methods.verifyRefreshTokenForDevice. split.
  - destruct (truthy dev) as [id|] eqn:T; [|discriminate].
    destruct (findDevice id (loggedInDevices r)) as [d|] eqn:F; [|discriminate].
    destruct (refreshToken d) as [t|] eqn:R; [|discriminate].
    intros E. apply Token_eqb_eq in E. subst t.
    exists d. split; [|exact R]. apply resolvesTo_find. exists id. auto.
  - intros (d & S & R). apply resolvesTo_find in S. destruct S as (id & T & F).
    rewrite T, F, R. apply Token_eqb_refl.
Qed.

(** C5.  [verifyRefreshTokenForDevice] answers [true] exactly when the
    device id resolves to a device session whose [refreshToken] is the given
    token; for a token that is not the current token of the session the id
    resolves to it answers [false], whether or not the token is an entry of
    [refreshTokens]. *)
Theorem verifyForDevice_current_token_only (r : UserLogin) (tok : Token) (dev : option string) :
  (methods.verifyRefreshTokenForDevice r tok dev = true <->
   exists d, resolvesTo r dev d /\ refreshToken d = Some tok) /\
  ((forall d, resolvesTo r dev d -> refreshToken d <> Some tok) ->
   methods.verifyRefreshTokenForDevice r tok dev = false).
Proof.
  split; [apply verify_resolves|].
  intros N. apply not_true_is_false. intros V.
  apply verify_resolves in V. destruct V as (d & S & R). exact (N d S R).
Qed.

(** The same over documents with distinct device ids: membership in the
    array replaces resolution. *)
Lemma verifyForDevice_distinct (r : UserLogin) (tok : Token) (dev : option string) :
  distinctDevices r ->
  (methods.verifyRefreshTokenForDevice r tok dev = true <->
   exists d, In d (loggedInDevices r) /\ dev = Some (deviceId d) /\
             refreshToken d = Some tok).
Proof.
  intros W. rewrite verify_resolves. split.
  - intros (d & S & R). apply (resolvesTo_distinct r dev d W) in S. exists d. tauto.
  - intros (d & I & E & R). exists d. split; [|exact R].
    apply (resolvesTo_distinct r dev d W). auto.
Qed.

(** ** The branches of [login] *)

Arguments attempt : simpl never.

Section Login.

Context {hasher : PasswordHasher} {config : TokenConfig}.

Variables (a : Attempt) (r : UserLogin).

Let clk := att_clock a.

Lemma attempt_permanent :
  isPermanentlyLocked r = true ->
  attempt a r = (inl AccountLockedPermanent, r).
Proof.
  intros P. unfold attempt, authService.login, authService.found_or, stored.
  rewrite P. reflexivity.
Qed.

Lemma attempt_temporary :
  isPermanentlyLocked r = false ->
  authService.lockPending (at_lockTest clk) r = true ->
  attempt a r =
  (inl (AccountLockedTemporary (authService.remainingTime (at_lockRemaining clk) r)), r).
Proof.
  intros P L. unfold attempt, authService.login, authService.found_or, stored.
  fold clk. rewrite P, L. reflexivity.
Qed.

Lemma attempt_wrong_password :
  isPermanentlyLocked r = false ->
  authService.lockPending (at_lockTest clk) r = false ->
  methods.comparePassword r (att_password a) = false ->
  attempt a r = (inl InvalidCredentials, authService.countFailure (at_lockStart clk) r).
Proof.
  intros P L C. unfold attempt, authService.login, authService.found_or, stored.
  fold clk. rewrite P, L, C. reflexivity.
Qed.

Lemma attempt_no_account :
  isPermanentlyLocked r = false ->
  authService.lockPending (at_lockTest clk) r = false ->
  methods.comparePassword r (att_password a) = true ->
  att_account a = None ->
  attempt a r = (inl AssociatedUserNotFound, r).
Proof.
  intros P L C U. unfold attempt, authService.login, authService.found_or, stored.
  fold clk. rewrite P, L, C, U. reflexivity.
Qed.

Lemma attempt_disabled (u : User) :
  isPermanentlyLocked r = false ->
  authService.lockPending (at_lockTest clk) r = false ->
  methods.comparePassword r (att_password a) = true ->
  att_account a = Some u ->
  canLogin u && isActive u = false ->
  attempt a r = (inl LoginDisabled, r).
Proof.
  intros P L C U D. unfold attempt, authService.login, authService.found_or, stored.
  fold clk. rewrite P, L, C, U. simpl.
  rewrite <- negb_andb, D. reflexivity.
Qed.

Lemma attempt_success (u : User) :
  isPermanentlyLocked r = false ->
  authService.lockPending (at_lockTest clk) r = false ->
  methods.comparePassword r (att_password a) = true ->
  att_account a = Some u ->
  canLogin u && isActive u = true ->
  let r1 := authService.resetOnSuccess (at_lastLogin clk) r in
  let issued :=
    methods.generateRefreshToken (at_issue clk) r1
      (att_deviceId a) (att_ipAddress a) (att_userAgent a) in
  attempt a r =
  (inr (mkLoginResult u (methods.generateAccessToken (at_access clk) r1)
          (fst issued) false (att_deviceId a)),
   snd issued).
Proof.
  intros P L C U D. unfold attempt, authService.login, authService.found_or, stored.
  fold clk. rewrite P, L, C, U. simpl.
  rewrite <- negb_andb, D. reflexivity.
Qed.

(** Every call takes one of the six branches. *)
Lemma attempt_cases :
  (isPermanentlyLocked r = true /\ attempt a r = (inl AccountLockedPermanent, r)) \/
  (isPermanentlyLocked r = false /\
   authService.lockPending (at_lockTest clk) r = true /\
   attempt a r =
   (inl (AccountLockedTemporary (authService.remainingTime (at_lockRemaining clk) r)), r)) \/
  (isPermanentlyLocked r = false /\
   authService.lockPending (at_lockTest clk) r = false /\
   methods.comparePassword r (att_password a) = false /\
   attempt a r = (inl InvalidCredentials, authService.countFailure (at_lockStart clk) r)) \/
  (methods.comparePassword r (att_password a) = true /\
   att_account a = None /\
   attempt a r = (inl AssociatedUserNotFound, r)) \/
  (methods.comparePassword r (att_password a) = true /\
   attempt a r = (inl LoginDisabled, r)) \/
  (isPermanentlyLocked r = false /\
   authService.lockPending (at_lockTest clk) r = false /\
   methods.comparePassword r (att_password a) = true /\
   exists res,
     attempt a r =
     (inr res,
      snd (methods.generateRefreshToken (at_issue clk)
             (authService.resetOnSuccess (at_lastLogin clk) r)
             (att_deviceId a) (att_ipAddress a) (att_userAgent a)))).
Proof.
  destruct (isPermanentlyLocked r) eqn:P.
  { left. split; [reflexivity | apply attempt_permanent, P]. }
  destruct (authService.lockPending (at_lockTest clk) r) eqn:L.
  { right; left. repeat split. apply attempt_temporary; assumption. }
  destruct (methods.comparePassword r (att_password a)) eqn:C.
  2:{ right; right; left. repeat split. apply attempt_wrong_password; assumption. }
  destruct (att_account a) as [u|] eqn:U.
  2:{ right; right; right; left. repeat split. apply attempt_no_account; assumption. }
  destruct (canLogin u && isActive u) eqn:D.
  - right; right; right; right; right. repeat split.
    eexists. apply (attempt_success u); assumption.
  - right; right; right; right; left. split; [reflexivity|].
    apply (attempt_disabled u); assumption.
Qed.

End Login.

(** ** Failure counting and the temporary lock *)

(** [ceil_div a b] is the least integer that is not below [a / b]. *)
Lemma ceil_div_spec (a b : Z) :
  0 < b -> b * (ceil_div a b - 1) < a <= b * ceil_div a b.
Proof.
  intros B. unfold ceil_div.
  pose proof (Z.div_mod (- a) b) as E.
  pose proof (Z.mod_pos_bound (- a) b B) as M.
  nia.
Qed.

Lemma ceil_div_pos (d : Z) : 0 < d -> 0 < ceil_div d (1000 * 60).
Proof.
  intros P. unfold ceil_div.
  assert (- d / (1000 * 60) < 0) by (apply Z.div_lt_upper_bound; lia).
  lia.
Qed.

Lemma countFailure_count (now : Time) (r : UserLogin) :
  failedLoginAttempts (authService.countFailure now r) = failedLoginAttempts r + 1.
Proof.
  unfold authService.countFailure. simpl.
  destruct (5 <=? failedLoginAttempts r + 1); reflexivity.
Qed.

Lemma countFailure_permanent (now : Time) (r : UserLogin) :
  isPermanentlyLocked (authService.countFailure now r) = isPermanentlyLocked r.
Proof.
  unfold authService.countFailure. simpl.
  destruct (5 <=? failedLoginAttempts r + 1); reflexivity.
Qed.

Lemma countFailure_locks (now : Time) (r : UserLogin) :
  5 <= failedLoginAttempts r + 1 ->
  lockLevel (authService.countFailure now r) = 1 /\
  lockUntil (authService.countFailure now r) = Some (now + 900000).
Proof.
  intros G. unfold authService.countFailure. simpl.
  apply Z.leb_le in G. rewrite G. simpl. auto.
Qed.

Lemma countFailure_below (now : Time) (r : UserLogin) :
  failedLoginAttempts r + 1 < 5 ->
  lockLevel (authService.countFailure now r) = lockLevel r /\
  lockUntil (authService.countFailure now r) = lockUntil r.
Proof.
  intros G. unfold authService.countFailure. simpl.
  apply Z.leb_gt in G. rewrite G. simpl. auto.
Qed.

Section Lockout.

Context {hasher : PasswordHasher} {config : TokenConfig}.

(** A call that throws "Invalid login credentials" on a document that was
    found went through the password check and counted the failure. *)
Lemma attempt_invalid (a : Attempt) (r r' : UserLogin) :
  attempt a r = (inl InvalidCredentials, r') ->
  isPermanentlyLocked r = false /\
  authService.lockPending (at_lockTest (att_clock a)) r = false /\
  methods.comparePassword r (att_password a) = false /\
  r' = authService.countFailure (at_lockStart (att_clock a)) r.
Proof.
  intros E.
  destruct (attempt_cases a r)
    as [[_ K]|[(_ & _ & K)|[(P & L & C & K)|[(_ & _ & K)|[(_ & K)|(_ & _ & _ & res & K)]]]]];
    rewrite K in E; try discriminate.
  injection E as <-. auto.
Qed.

(** A lock that is no longer pending never produces the temporary-lock error. *)
Lemma attempt_not_temporary (a : Attempt) (r : UserLogin) (m : Z) :
  authService.lockPending (at_lockTest (att_clock a)) r = false ->
  fst (attempt a r) <> inl (AccountLockedTemporary m).
Proof.
  intros L.
  destruct (attempt_cases a r)
    as [[_ K]|[(_ & L' & K)|[(_ & _ & _ & K)|[(_ & _ & K)|[(_ & K)|(_ & _ & _ & res & K)]]]]];
    rewrite K; simpl; try discriminate.
  simpl in L'. congruence.
Qed.

Lemma logins_cons (a : Attempt) (l : list Attempt) (r : UserLogin) :
  logins (a :: l) r =
  (fst (attempt a r) :: fst (logins l (snd (attempt a r))),
   snd (logins l (snd (attempt a r)))).
Proof.
  cbn [logins]. destruct (attempt a r) as [x r1]. cbn [fst snd].
  destruct (logins l r1) as [xs r2]. reflexivity.
Qed.

Lemma logins_app (l : list Attempt) (a : Attempt) (r : UserLogin) :
  logins (l ++ [a]) r =
  (fst (logins l r) ++ [fst (attempt a (snd (logins l r)))],
   snd (attempt a (snd (logins l r)))).
Proof.
  revert r. induction l as [|b l IH]; intros r.
  - cbn [app]. rewrite logins_cons. reflexivity.
  - cbn [app]. rewrite !logins_cons, IH. reflexivity.
Qed.

(** The results of a prefix of the calls are a prefix of the results. *)
Lemma logins_firstn (k : nat) (l : list Attempt) (r : UserLogin) :
  fst (logins (firstn k l) r) = firstn k (fst (logins l r)).
Proof.
  revert k r. induction l as [|a l IH]; intros k r.
  - destruct k; reflexivity.
  - destruct k as [|k]; [reflexivity|].
    rewrite firstn_cons, !logins_cons. simpl. rewrite IH. reflexivity.
Qed.

(** A run of failed logins counts each of them, and leaves the lock fields
    alone as long as the count stays below five. *)
Lemma logins_failures (l : list Attempt) (r : UserLogin) :
  Forall (fun x => x = inl InvalidCredentials) (fst (logins l r)) ->
  let r' := snd (logins l r) in
  failedLoginAttempts r' = failedLoginAttempts r + Z.of_nat (List.length l) /\
  isPermanentlyLocked r' = isPermanentlyLocked r /\
  (failedLoginAttempts r' < 5 ->
   lockLevel r' = lockLevel r /\ lockUntil r' = lockUntil r).
Proof.
  revert r. induction l as [|a l IH]; intros r F.
  - simpl. repeat split; lia.
  - rewrite logins_cons in *. cbn [fst snd] in *.
    apply Forall_cons_iff in F. destruct F as [Hx Hxs].
    destruct (attempt a r) as [x r1] eqn:E. cbn [fst snd] in *. subst x.
    apply attempt_invalid in E. destruct E as (P & _ & _ & ->).
    specialize (IH _ Hxs). cbn zeta in IH. destruct IH as (N & Q & B).
    rewrite countFailure_count in N. rewrite countFailure_permanent in Q.
    repeat split.
    + rewrite N. cbn [List.length]. lia.
    + exact Q.
    + destruct (B H) as [B1 _]. rewrite B1. apply countFailure_below. lia.
    + destruct (B H) as [_ B2]. rewrite B2. apply countFailure_below. lia.
Qed.

(** C1.  Five failed logins in a row, each of them thrown as "Invalid login
    credentials" on a document whose counter is not negative, leave
    [lockLevel = 1] and [lockUntil] fifteen minutes after the clock of the
    fifth; until that time every further login, whatever its password, is
    refused with the temporary-lock error and a positive remaining time, and
    from that time on the error is not produced.  On a document whose
    counter is zero, fewer than five failures leave the lock fields as
    they were. *)
Theorem five_failures_lock_the_account
    (r : UserLogin) (a1 a2 a3 a4 a5 : Attempt) (r5 : UserLogin) :
  0 <= failedLoginAttempts r ->
  logins [a1; a2; a3; a4; a5] r = (repeat (inl InvalidCredentials) 5, r5) ->
  let lockEnd := at_lockStart (att_clock a5) + 900000 in
  lockLevel r5 = 1 /\
  lockUntil r5 = Some lockEnd /\
  (forall next : Attempt,
     at_lockTest (att_clock next) <= at_lockRemaining (att_clock next) ->
     at_lockRemaining (att_clock next) < lockEnd ->
     exists minutes,
       0 < minutes /\
       attempt next r5 = (inl (AccountLockedTemporary minutes), r5)) /\
  (forall (next : Attempt) (minutes : Z),
     lockEnd <= at_lockTest (att_clock next) ->
     fst (attempt next r5) <> inl (AccountLockedTemporary minutes)) /\
  (failedLoginAttempts r = 0 ->
   forall k, (k < 5)%nat ->
     let rk := snd (logins (firstn k [a1; a2; a3; a4; a5]) r) in
     lockLevel rk = lockLevel r /\ lockUntil rk = lockUntil r).
Proof.
  intros NN Run lockEnd.
  pose proof Run as Split.
  change [a1; a2; a3; a4; a5] with ([a1; a2; a3; a4] ++ [a5]) in Split.
  rewrite (logins_app [a1; a2; a3; a4] a5 r) in Split.
  remember (snd (logins [a1; a2; a3; a4] r)) as r4 eqn:R4.
  apply pair_equal_spec in Split. destruct Split as [X R5].
  change (repeat (inl InvalidCredentials) 5)
    with (repeat (@inl AuthError LoginResult InvalidCredentials) 4
            ++ [inl InvalidCredentials]) in X.
  apply app_inj_tail in X. destruct X as [X4 X5].
  assert (F4 : Forall (fun x => x = inl InvalidCredentials)
                 (fst (logins [a1; a2; a3; a4] r))).
  { rewrite X4. apply Forall_forall. intros x Ix.
    apply repeat_spec in Ix. exact Ix. }
  pose proof (logins_failures [a1; a2; a3; a4] r F4) as S4. cbn zeta in S4.
  rewrite <- R4 in S4. destruct S4 as (N4 & _ & _).
  assert (E5 : attempt a5 r4 = (inl InvalidCredentials, r5)).
  { rewrite <- X5, <- R5. apply surjective_pairing. }
  apply attempt_invalid in E5. destruct E5 as (P & _ & _ & C5).
  assert (G : 5 <= failedLoginAttempts r4 + 1).
  { rewrite N4. cbn [List.length]. lia. }
  destruct (countFailure_locks (at_lockStart (att_clock a5)) _ G) as [LL LU].
  rewrite <- C5 in LL, LU.
  assert (P5 : isPermanentlyLocked r5 = false).
  { rewrite C5, countFailure_permanent. exact P. }
  split; [exact LL|]. split; [exact LU|]. split; [|split].
  - intros next M B.
    exists (authService.remainingTime (at_lockRemaining (att_clock next)) r5). split.
    + unfold authService.remainingTime. rewrite LU. apply ceil_div_pos.
      fold lockEnd. lia.
    + apply attempt_temporary; [exact P5|].
      unfold authService.lockPending. rewrite LU. apply Z.ltb_lt.
      fold lockEnd. lia.
  - intros next minutes B. apply attempt_not_temporary.
    unfold authService.lockPending. rewrite LU. apply Z.ltb_ge. exact B.
  - intros Z0 k Hk rk.
    assert (Fk : Forall (fun x => x = inl InvalidCredentials)
                   (fst (logins (firstn k [a1; a2; a3; a4; a5]) r))).
    { rewrite logins_firstn, Run. cbn [fst]. clear - Hk.
      do 5 (destruct k as [|k]; [cbn; repeat constructor|]). lia. }
    pose proof (logins_failures _ r Fk) as Sk. cbn zeta in Sk. fold rk in Sk.
    destruct Sk as (Nk & _ & Bk). apply Bk. rewrite Nk, Z0.
    rewrite length_firstn. cbn [List.length]. lia.
Qed.

End Lockout.

(** ** Signing devices out *)

Lemma closeEvent_idem (n1 n2 : Time) (e : LoginEvent) :
  closeEvent n2 (closeEvent n1 e) = closeEvent n1 e.
Proof.
  unfold closeEvent. destruct (logoutAt e) eqn:L; simpl; [rewrite L|]; reflexivity.
Qed.

Lemma closeLast_idem (n1 n2 : Time) (h : list LoginEvent) :
  closeLast n2 (closeLast n1 h) = closeLast n1 h.
Proof.
  induction h as [|e rest IH]; [reflexivity|].
  destruct rest as [|e' rest].
  - simpl. rewrite closeEvent_idem. reflexivity.
  - change (closeLast n1 (e :: e' :: rest)) with (e :: closeLast n1 (e' :: rest)).
    destruct (closeLast n1 (e' :: rest)) as [|x xs] eqn:C.
    + destruct rest; discriminate.
    + change (closeLast n2 (e :: x :: xs)) with (e :: closeLast n2 (x :: xs)).
      rewrite IH. reflexivity.
Qed.

Lemma signOut_idem (n1 n2 : Time) (d : Device) :
  signOut n2 (signOut n1 d) = signOut n1 d.
Proof.
  unfold signOut. simpl. rewrite closeLast_idem. reflexivity.
Qed.

Lemma signOutFrom_idem (now1 now2 : nat -> Time) (ds : list Device) :
  forall i j, signOutFrom now2 j (signOutFrom now1 i ds) = signOutFrom now1 i ds.
Proof.
  induction ds as [|d rest IH]; intros i j; simpl; [reflexivity|].
  rewrite signOut_idem, IH. reflexivity.
Qed.

Lemma signOutFrom_ids (now : nat -> Time) (ds : list Device) :
  forall i, map deviceId (signOutFrom now i ds) = map deviceId ds.
Proof.
  induction ds as [|d rest IH]; intros i; simpl; [reflexivity|].
  rewrite IH. reflexivity.
Qed.

Lemma signOutFrom_signed_out (now : nat -> Time) (ds : list Device) (d : Device) :
  forall i, In d (signOutFrom now i ds) -> refreshToken d = None.
Proof.
  induction ds as [|x rest IH]; intros i; simpl; [tauto|].
  intros [<-|I]; [reflexivity | exact (IH _ I)].
Qed.

Lemma logoutAllDevices_signed_out (now : nat -> Time) (r : UserLogin) :
  allSignedOut (methods.logoutAllDevices now r).
Proof.
  intros d I. simpl in I. exact (signOutFrom_signed_out _ _ _ _ I).
Qed.

(** A document on which no device holds a token verifies no token. *)
Lemma allSignedOut_verifies_nothing (r : UserLogin) :
  allSignedOut r ->
  forall tok dev, methods.verifyRefreshTokenForDevice r tok dev = false.
Proof.
  intros A tok dev. unfold methods.verifyRefreshTokenForDevice.
  destruct (truthy dev) as [id|]; [|reflexivity].
  destruct (findDevice id (loggedInDevices r)) as [d|] eqn:F; [|reflexivity].
  apply findDevice_In in F. destruct F as [I _]. rewrite (A d I). reflexivity.
Qed.

(** ** Issuing a refresh token *)

Section Issue.

Context {config : TokenConfig}.

Variables (clk : IssueClock) (r : UserLogin) (dev ip ua : option string).

Let issued := methods.generateRefreshToken clk r dev ip ua.

Lemma issued_token :
  fst issued = jwt_sign REFRESH_TOKEN_SECRET (user r) None refreshTokenExpiry (at_sign clk).
Proof. reflexivity. Qed.

(** The list grows by one entry, at its end. *)
Lemma issued_entry :
  refreshTokens (snd issued) =
  refreshTokens r ++ [mkRefreshEntry (fst issued) (or_else dev "unknown") (at_created clk)].
Proof.
  unfold issued, methods.generateRefreshToken. cbn [fst snd].
  destruct (truthy dev) as [id|]; [|reflexivity].
  destruct (findDevice id _); reflexivity.
Qed.

(** Only the two arrays are written. *)
Lemma issued_scalars :
  user (snd issued) = user r /\
  password (snd issued) = password r /\
  failedLoginAttempts (snd issued) = failedLoginAttempts r /\
  lockLevel (snd issued) = lockLevel r /\
  lockUntil (snd issued) = lockUntil r /\
  isPermanentlyLocked (snd issued) = isPermanentlyLocked r /\
  isLoggedIn (snd issued) = isLoggedIn r /\
  lastLogin (snd issued) = lastLogin r.
Proof.
  unfold issued, methods.generateRefreshToken. cbn [fst snd].
  destruct (truthy dev) as [id|]; [destruct (findDevice id _)|]; cbn; tauto.
Qed.

(** Without a device id the device array is not touched. *)
Lemma issued_without_device :
  truthy dev = None ->
  loggedInDevices (snd issued) = loggedInDevices r /\
  refreshTokens (snd issued) =
  refreshTokens r ++ [mkRefreshEntry (fst issued) "unknown" (at_created clk)].
Proof.
  intros T. unfold issued, methods.generateRefreshToken, or_else. cbn [fst snd].
  rewrite T. auto.
Qed.

(** With a device id, the id resolves to a session that holds the token. *)
Lemma issued_bound (id : string) :
  truthy dev = Some id ->
  exists d,
    findDevice id (loggedInDevices (snd issued)) = Some d /\
    refreshToken d = Some (fst issued).
Proof.
  intros T. unfold issued, methods.generateRefreshToken. cbn [fst snd].
  rewrite T. cbn [loggedInDevices set_refreshTokens].
  destruct (findDevice id (loggedInDevices r)) as [d0|] eqn:F.
  - cbn [loggedInDevices set_loggedInDevices].
    rewrite findDevice_updateDevice by reflexivity. rewrite F.
    eexists. split; reflexivity.
  - cbn [loggedInDevices set_loggedInDevices]. eexists. split.
    + apply findDevice_app_new; [exact F | reflexivity].
    + reflexivity.
Qed.

(** A session of the new array is a session of the old one, or holds the
    token that was issued. *)
Lemma issued_sessions (d : Device) :
  In d (loggedInDevices (snd issued)) ->
  In d (loggedInDevices r) \/ refreshToken d = Some (fst issued).
Proof.
  unfold issued, methods.generateRefreshToken. cbn [fst snd].
  destruct (truthy dev) as [id|]; [|auto].
  cbn [loggedInDevices set_refreshTokens].
  destruct (findDevice id (loggedInDevices r)) as [d0|];
    cbn [loggedInDevices set_loggedInDevices]; intros I.
  - apply In_updateDevice in I. destruct I as [I|(x & _ & ->)]; auto.
  - apply in_app_or in I. destruct I as [I|[<-|[]]]; auto.
Qed.

Lemma issued_listed :
  boundTokensListed r -> boundTokensListed (snd issued).
Proof.
  intros B d t I R. unfold listed. rewrite issued_entry.
  destruct (issued_sessions d I) as [Old|New].
  - destruct (B d t Old R) as (e & Ie & Et). exists e. split; [|exact Et].
    apply in_or_app. auto.
  - eexists. split; [apply in_or_app; right; left; reflexivity|].
    cbn [rt_token]. congruence.
Qed.

End Issue.

(** ** Calls of [login] that find the document *)

Section LoginOutcome.

Context {hasher : PasswordHasher} {config : TokenConfig}.

Lemma login_attempt (clk : LoginClock) (r : UserLogin) (account : option User)
    (pw : string) (dev ip ua : option string) :
  let a := mkAttempt clk account pw dev ip ua in
  authService.login clk (Some r) account pw dev ip ua =
  (fst (attempt a r), Some (snd (attempt a r))).
Proof.
  unfold attempt, authService.login, authService.found_or, stored. cbn [att_clock
    att_account att_password att_deviceId att_ipAddress att_userAgent].
  match goal with |- (let (_, _) := ?k in _) = _ => destruct k as [res saved] end.
  reflexivity.
Qed.

(** C7.  A login that finds the document unlocked, with no lock pending,
    the right password and an account that may log in, succeeds, and the
    stored document has [failedLoginAttempts = 0], [lockLevel = 0],
    [lockUntil = null], [isLoggedIn = true] and [lastLogin] at the clock of
    the login, whatever the counters were before. *)
Theorem successful_login_resets_failure_state
    (clk : LoginClock) (r : UserLogin) (u : User)
    (pw : string) (dev ip ua : option string) :
  isPermanentlyLocked r = false ->
  authService.lockPending (at_lockTest clk) r = false ->
  methods.comparePassword r pw = true ->
  canLogin u = true ->
  isActive u = true ->
  exists res saved,
    authService.login clk (Some r) (Some u) pw dev ip ua = (inr res, Some saved) /\
    failedLoginAttempts saved = 0 /\
    lockLevel saved = 0 /\
    lockUntil saved = None /\
    isLoggedIn saved = true /\
    lastLogin saved = Some (at_lastLogin clk).
Proof.
  intros P L C CL AC. rewrite login_attempt. cbn zeta.
  rewrite (attempt_success _ r u); cbn [att_clock att_account att_password]; auto.
  2:{ rewrite CL, AC. reflexivity. }
  cbn zeta. cbn [fst snd att_deviceId att_ipAddress att_userAgent].
  eexists. eexists. split; [reflexivity|].
  destruct (issued_scalars (at_issue clk)
              (authService.resetOnSuccess (at_lastLogin clk) r) dev ip ua)
    as (_ & _ & F & LL & LU & _ & LI & LA).
  rewrite F, LL, LU, LI, LA. repeat split; reflexivity.
Qed.

(** C8.  As long as the password does not verify, the outcome of [login]
    is the same whatever the account lookup returns; and a login thrown as
    "User is not allowed to login" has verified the password and stores the
    document as it found it, so [failedLoginAttempts], [lockLevel] and
    [lockUntil] keep their values.  The error is thrown exactly when the
    document is not locked, the password verifies and the account is found
    with [canLogin] or [isActive] false. *)
Theorem login_disabled_is_checked_last_and_changes_nothing
    (clk : LoginClock) (r : UserLogin) (account account' : option User)
    (pw : string) (dev ip ua : option string) :
  (methods.comparePassword r pw = false ->
   authService.login clk (Some r) account pw dev ip ua =
   authService.login clk (Some r) account' pw dev ip ua) /\
  (forall saved,
     authService.login clk (Some r) account pw dev ip ua = (inl LoginDisabled, saved) ->
     methods.comparePassword r pw = true /\ saved = Some r) /\
  (authService.login clk (Some r) account pw dev ip ua = (inl LoginDisabled, Some r) <->
   isPermanentlyLocked r = false /\
   authService.lockPending (at_lockTest clk) r = false /\
   methods.comparePassword r pw = true /\
   exists u, account = Some u /\ (canLogin u = false \/ isActive u = false)).
Proof.
  split; [|split].
  - intros C. unfold authService.login, authService.found_or. rewrite C. reflexivity.
  - intros saved E. unfold authService.login, authService.found_or in E.
    destruct (isPermanentlyLocked r); [discriminate|].
    destruct (authService.lockPending _ r); [discriminate|].
    destruct (methods.comparePassword r pw); [|discriminate].
    destruct account as [u|]; [|discriminate].
    cbn [negb] in E. destruct (negb (canLogin u) || negb (isActive u)).
    + injection E as <-. auto.
    + discriminate.
  - unfold authService.login, authService.found_or. split.
    + intros E.
      destruct (isPermanentlyLocked r); [discriminate|].
      destruct (authService.lockPending _ r); [discriminate|].
      destruct (methods.comparePassword r pw); [|discriminate].
      destruct account as [u|]; [|discriminate].
      cbn [negb] in E. repeat split. exists u. split; [reflexivity|].
      destruct (canLogin u); [|auto]. destruct (isActive u); [|auto].
      discriminate.
    + intros (P & L & C & u & -> & D). rewrite P, L, C. cbn [negb].
      destruct D as [D|D]; rewrite D; [|rewrite orb_true_r]; reflexivity.
Qed.

End LoginOutcome.

(** ** Administrative lock and password change *)

Section Administration.

Context {hasher : PasswordHasher} {config : TokenConfig}.

Lemma logins_permanent (l : list Attempt) (r : UserLogin) :
  isPermanentlyLocked r = true ->
  logins l r = (repeat (inl AccountLockedPermanent) (List.length l), r).
Proof.
  intros P. induction l as [|a l IH]; [reflexivity|].
  rewrite logins_cons, (attempt_permanent a r P). cbn [fst snd].
  rewrite IH. reflexivity.
Qed.

(** C10.  [lockAccount] on a document that is found succeeds and stores a
    document with [isPermanentlyLocked = true] on which the same devices are
    all without a refresh token; locking that document again, at any time
    and for any reason, stores the same document; and every login on it,
    one or many, with any password, is thrown as permanently locked and
    leaves it as it is. *)
Theorem lockAccount_signs_out_and_bars_login
    (now : nat -> Time) (reason : string) (r : UserLogin) :
  exists locked,
    authService.lockAccount now (Some r) reason =
    (inr ("Account locked. Reason: " ++ reason)%string, Some locked) /\
    isPermanentlyLocked locked = true /\
    map deviceId (loggedInDevices locked) = map deviceId (loggedInDevices r) /\
    allSignedOut locked /\
    (forall now' reason',
       snd (authService.lockAccount now' (Some locked) reason') = Some locked) /\
    (forall clk account pw dev ip ua,
       authService.login clk (Some locked) account pw dev ip ua =
       (inl AccountLockedPermanent, Some locked)) /\
    (forall l : list Attempt,
       logins l locked =
       (repeat (inl AccountLockedPermanent) (List.length l), locked)).
Proof.
  eexists. split; [reflexivity|].
  split; [reflexivity|]. split; [apply signOutFrom_ids|].
  split; [apply logoutAllDevices_signed_out|]. split; [|split].
  - intros now' reason'. unfold authService.lockAccount, authService.found_or.
    cbn [snd]. f_equal. unfold methods.logoutAllDevices. cbn.
    rewrite signOutFrom_idem. reflexivity.
  - intros clk account pw dev ip ua. reflexivity.
  - intros l. apply logins_permanent. reflexivity.
Qed.


End Administration.

(** ** Rotation on refresh *)

Section Rotation.

Context {config : TokenConfig}.

(** What a refresh that succeeds stores: the token it returns is signed at
    the clock of the call, the device id resolves to a session that holds
    it, the list of the document is the old list followed by its entry, and
    the token that was presented still verifies for the device exactly when
    the new token is the same string. *)
Lemma refresh_rotates (clk : RefreshClock) (r saved : UserLogin)
    (old : Token) (dev : option string) (res : RefreshResult) :
  authService.refreshTokens clk (Some r) old dev = (inr res, Some saved) ->
  methods.verifyRefreshTokenForDevice r old dev = true /\
  new_refreshToken res =
    jwt_sign REFRESH_TOKEN_SECRET (user r) None refreshTokenExpiry (at_sign (at_newIssue clk)) /\
  (exists d, resolvesTo saved dev d /\ refreshToken d = Some (new_refreshToken res)) /\
  refreshTokens saved =
    refreshTokens r ++
    [mkRefreshEntry (new_refreshToken res) (or_else dev "unknown")
       (at_created (at_newIssue clk))] /\
  methods.verifyRefreshTokenForDevice saved old dev =
    Token_eqb (new_refreshToken res) old.
Proof.
  unfold authService.refreshTokens, authService.found_or.
  destruct (jwt_verify REFRESH_TOKEN_SECRET old (at_verify clk)) as [[|]|c]; try discriminate.
  destruct (methods.verifyRefreshTokenForDevice r old dev) eqn:V;
    cbn [negb]; [|discriminate].
  assert (T : exists id, truthy dev = Some id).
  { unfold methods.verifyRefreshTokenForDevice in V.
    destruct (truthy dev) as [id|]; [eauto | discriminate]. }
  destruct T as [id T].
  pose proof (issued_token (at_newIssue clk) r dev None None) as Tk.
  pose proof (issued_entry (at_newIssue clk) r dev None None) as En.
  pose proof (issued_bound (at_newIssue clk) r dev None None id T) as (d & F & R).
  destruct (methods.generateRefreshToken (at_newIssue clk) r dev None None)
    as [new r1].
  cbn [fst snd] in *. intros E. injection E as <- <-. cbn [new_refreshToken].
  split; [reflexivity|]. split; [exact Tk|]. split; [|split].
  - exists d. split; [|exact R]. apply resolvesTo_find. exists id. auto.
  - exact En.
  - unfold methods.verifyRefreshTokenForDevice. rewrite T, F, R. reflexivity.
Qed.

End Rotation.

(** ** Bound tokens are listed *)

Lemma boundTokensListed_ext (r r' : UserLogin) :
  loggedInDevices r' = loggedInDevices r ->
  refreshTokens r' = refreshTokens r ->
  boundTokensListed r -> boundTokensListed r'.
Proof.
  unfold boundTokensListed, listed. intros -> ->. auto.
Qed.

Lemma allSignedOut_listed (r : UserLogin) :
  allSignedOut r -> boundTokensListed r.
Proof.
  intros A d t I R. rewrite (A d I) in R. discriminate.
Qed.

Lemma boundTokensListedb_spec (r : UserLogin) :
  boundTokensListedb r = true <-> boundTokensListed r.
Proof.
  unfold boundTokensListedb, boundTokensListed, listed.
  rewrite forallb_forall. split.
  - intros B d t I R. specialize (B d I). rewrite R in B.
    apply existsb_exists in B. destruct B as (e & Ie & E).
    apply Token_eqb_eq in E. eauto.
  - intros B d I. destruct (refreshToken d) as [t|] eqn:R; [|reflexivity].
    destruct (B d t I R) as (e & Ie & E). apply existsb_exists.
    exists e. split; [exact Ie|]. apply Token_eqb_eq. exact E.
Qed.

Lemma logoutDevice_listed (now : Time) (r : UserLogin) (dev : option string) :
  boundTokensListed r -> boundTokensListed (snd (methods.logoutDevice now r dev)).
Proof.
  intros B. unfold methods.logoutDevice.
  destruct (truthy dev) as [id|]; [|exact B].
  destruct (findDevice id (loggedInDevices r)) as [d0|]; [|exact B].
  cbn [snd]. intros d t I R. cbn in I.
  apply In_updateDevice in I. destruct I as [I|(x & _ & ->)].
  - exact (B d t I R).
  - discriminate.
Qed.

Section Invariant.

Context {hasher : PasswordHasher} {config : TokenConfig}.

(** C3, as the code has it.  Every operation of the service other than
    [revokeToken] keeps the invariant that a refresh token held by a device
    session is the token of an entry of [refreshTokens]. *)
Theorem bound_tokens_stay_listed (op : Operation) (r : UserLogin) :
  isRevoke op = false ->
  boundTokensListed r ->
  boundTokensListed (perform op r).
Proof.
  intros NR B. destruct op as [a|clk tok dev|now dev|now|tok|salt now old new|now reason|];
    try discriminate; unfold perform.
  - pose proof (issued_listed (at_issue (att_clock a))
                  (authService.resetOnSuccess (at_lastLogin (att_clock a)) r)
                  (att_deviceId a) (att_ipAddress a) (att_userAgent a)) as G.
    destruct (attempt_cases a r)
      as [[_ K]|[(_ & _ & K)|[(_ & _ & _ & K)|[(_ & _ & K)|[(_ & K)|(_ & _ & _ & res & K)]]]]];
      rewrite K; cbn [snd]; try exact B.
    + apply (boundTokensListed_ext r); [| |exact B];
        unfold authService.countFailure; cbn;
        destruct (5 <=? failedLoginAttempts r + 1); reflexivity.
    + apply G. apply (boundTokensListed_ext r); [reflexivity|reflexivity|exact B].
  - pose proof (issued_listed (at_newIssue clk) r dev None None B) as G.
    unfold authService.refreshTokens, authService.found_or, stored.
    destruct (jwt_verify REFRESH_TOKEN_SECRET tok (at_verify clk)) as [[|]|c]; try exact B.
    destruct (methods.verifyRefreshTokenForDevice r tok dev); cbn [negb]; [|exact B].
    destruct (methods.generateRefreshToken (at_newIssue clk) r dev None None)
      as [new r1]. exact G.
  - pose proof (logoutDevice_listed now r dev B) as G.
    unfold authService.logout, authService.found_or, stored.
    destruct (methods.logoutDevice now r dev) as [ok r1]. cbn [snd] in G.
    destruct ok; cbn [negb snd]; [|exact B].
    destruct (List.length (authService.activeDevices r1) =? 0)%nat; [|exact G].
    apply (boundTokensListed_ext r1); [reflexivity|reflexivity|exact G].
  - apply allSignedOut_listed. intros d I. exact (signOutFrom_signed_out _ _ _ _ I).
  - unfold authService.changePassword, authService.found_or, stored.
    destruct (methods.comparePassword r old); cbn [negb snd]; [|exact B].
    apply allSignedOut_listed. intros d I. exact (signOutFrom_signed_out _ _ _ _ I).
  - apply allSignedOut_listed. intros d I. exact (signOutFrom_signed_out _ _ _ _ I).
  - apply (boundTokensListed_ext r); [reflexivity|reflexivity|exact B].
Qed.

(** C9, as the code has it.  A login that succeeds with no device id (none,
    or the empty string) is not rejected: the token it returns is listed in
    [refreshTokens] under the device id "unknown", at the end of the list,
    and the device array is stored as it was found; no session is created
    or updated for any device. *)
Theorem login_without_deviceId_lists_the_token_only
    (clk : LoginClock) (r : UserLogin) (u : User)
    (pw : string) (dev ip ua : option string) :
  dev = None \/ dev = Some "" ->
  isPermanentlyLocked r = false ->
  authService.lockPending (at_lockTest clk) r = false ->
  methods.comparePassword r pw = true ->
  canLogin u = true ->
  isActive u = true ->
  exists res saved,
    authService.login clk (Some r) (Some u) pw dev ip ua = (inr res, Some saved) /\
    refreshTokens saved =
      refreshTokens r ++
      [mkRefreshEntry (res_refreshToken res) "unknown" (at_created (at_issue clk))] /\
    loggedInDevices saved = loggedInDevices r.
Proof.
  intros T P L C CL AC. apply truthy_None in T. rewrite login_attempt. cbn zeta.
  rewrite (attempt_success _ r u); cbn [att_clock att_account att_password]; auto.
  2:{ rewrite CL, AC. reflexivity. }
  cbn zeta. cbn [fst snd att_deviceId att_ipAddress att_userAgent].
  eexists. eexists. split; [reflexivity|]. cbn [res_refreshToken].
  destruct (issued_without_device (at_issue clk)
              (authService.resetOnSuccess (at_lastLogin clk) r) dev ip ua T) as [D E].
  split; [exact E | exact D].
Qed.

End Invariant.

(** ** Logging devices out *)

Lemma findDevice_updateDevice_other (id id' : string) (f : Device -> Device) (ds : list Device) :
  (forall d, deviceId (f d) = deviceId d) -> id' <> id ->
  findDevice id' (updateDevice id f ds) = findDevice id' ds.
Proof.
  intros K N. unfold findDevice. induction ds as [|x rest IH]; simpl; [reflexivity|].
  destruct (String.eqb_spec (deviceId x) id) as [E|E]; simpl.
  - rewrite K. destruct (String.eqb_spec (deviceId x) id'); [congruence | reflexivity].
  - rewrite IH. reflexivity.
Qed.

Lemma logoutDevice_known (now : Time) (r : UserLogin) (dev : option string) :
  fst (methods.logoutDevice now r dev) = true <-> exists d, resolvesTo r dev d.
Proof.
  unfold methods.logoutDevice. split.
  - destruct (truthy dev) as [id|] eqn:T; [|discriminate].
    destruct (findDevice id (loggedInDevices r)) as [d|] eqn:F; [|discriminate].
    intros _. exists d. apply resolvesTo_find. exists id. auto.
  - intros (d & S). apply resolvesTo_find in S. destruct S as (id & T & F).
    rewrite T, F. reflexivity.
Qed.

(** X1.  [logoutDevice] answers [true] exactly when the device id resolves
    to a session of the document, and an answer [false] comes with the
    document as it was. *)
Theorem logoutDevice_answers_whether_the_device_is_known
    (now : Time) (r : UserLogin) (dev : option string) :
  (fst (methods.logoutDevice now r dev) = true <-> exists d, resolvesTo r dev d) /\
  (fst (methods.logoutDevice now r dev) = false ->
   snd (methods.logoutDevice now r dev) = r).
Proof.
  split; [apply logoutDevice_known|].
  unfold methods.logoutDevice.
  destruct (truthy dev) as [id|]; [|reflexivity].
  destruct (findDevice id (loggedInDevices r)); [discriminate | reflexivity].
Qed.

(** X2.  A [logoutDevice] that answers [true] leaves [refreshTokens] and
    the ids of the devices as they were; afterwards no token verifies for
    the device id that was logged out, and for every other device id
    verification answers what it answered before. *)
Theorem logoutDevice_unbinds_that_device_only
    (now : Time) (r : UserLogin) (dev : option string) :
  fst (methods.logoutDevice now r dev) = true ->
  let saved := snd (methods.logoutDevice now r dev) in
  refreshTokens saved = refreshTokens r /\
  map deviceId (loggedInDevices saved) = map deviceId (loggedInDevices r) /\
  (forall tok, methods.verifyRefreshTokenForDevice saved tok dev = false) /\
  (forall tok dev',
     truthy dev' <> truthy dev ->
     methods.verifyRefreshTokenForDevice saved tok dev' =
     methods.verifyRefreshTokenForDevice r tok dev').
Proof.
  unfold methods.logoutDevice.
  destruct (truthy dev) as [id|] eqn:T; [|discriminate].
  destruct (findDevice id (loggedInDevices r)) as [d|] eqn:F; [|discriminate].
  intros _. cbn [snd]. split; [reflexivity|]. split; [|split].
  - apply map_deviceId_updateDevice. reflexivity.
  - intros tok. unfold methods.verifyRefreshTokenForDevice. rewrite T.
    cbn [loggedInDevices set_loggedInDevices].
    rewrite findDevice_updateDevice by reflexivity. rewrite F. reflexivity.
  - intros tok dev' N. unfold methods.verifyRefreshTokenForDevice.
    destruct (truthy dev') as [id'|]; [|reflexivity].
    cbn [loggedInDevices set_loggedInDevices].
    rewrite findDevice_updateDevice_other; [reflexivity | reflexivity | congruence].
Qed.

Lemma closeLast_snoc (now : Time) (h : list LoginEvent) (e : LoginEvent) :
  closeLast now (h ++ [e]) = h ++ [closeEvent now e].
Proof.
  induction h as [|x rest IH]; [reflexivity|].
  cbn [app]. destruct rest as [|y rest]; [reflexivity|].
  change (closeLast now (x :: (y :: rest) ++ [e]))
    with (x :: closeLast now ((y :: rest) ++ [e])).
  rewrite IH. reflexivity.
Qed.

Lemma closeEvent_loginAt (now : Time) (e : LoginEvent) :
  loginAt (closeEvent now e) = loginAt e.
Proof. unfold closeEvent. destruct (logoutAt e); reflexivity. Qed.

Lemma closeEvent_closed (now : Time) (e : LoginEvent) :
  logoutAt (closeEvent now e) <> None.
Proof. unfold closeEvent. destruct (logoutAt e) eqn:L; simpl; congruence. Qed.

Lemma lastLoginAt_snoc (h : list LoginEvent) (e : LoginEvent) :
  lastLoginAt (h ++ [e]) = Some (loginAt e).
Proof.
  unfold lastLoginAt. rewrite map_app. cbn [map]. rewrite last_last. reflexivity.
Qed.

Lemma lastLoginAt_closeLast (now : Time) (h : list LoginEvent) :
  lastLoginAt (closeLast now h) = lastLoginAt h.
Proof.
  destruct h as [|x rest] eqn:H; [reflexivity|]. rewrite <- H. destruct (@exists_last _ h) as (pre & e & ->); [congruence|].
  rewrite closeLast_snoc, !lastLoginAt_snoc, closeEvent_loginAt. reflexivity.
Qed.

Lemma summary_signOut (now : Time) (d : Device) :
  mkDeviceSummary (deviceId (signOut now d)) (ipAddress (signOut now d))
    (userAgent (signOut now d)) (loginCount (signOut now d))
    (option_map loginAt (last (map Some (loginHistory (signOut now d))) None)) =
  mkDeviceSummary (deviceId d) (ipAddress d) (userAgent d) (loginCount d)
    (option_map loginAt (last (map Some (loginHistory d)) None)).
Proof.
  cbn [signOut deviceId ipAddress userAgent loginCount loginHistory]. f_equal.
  apply lastLoginAt_closeLast.
Qed.

(** X3.  Logging out does not change what [getActiveDevices] reports:
    after [logoutAllDevices] and after [logoutDevice] the list is the same,
    one summary per device session whether it holds a token or not, with
    the same [loginCount] and [lastLogin]. *)
Theorem getActiveDevices_also_lists_devices_that_logged_out
    (now : Time) (nows : nat -> Time) (r : UserLogin) (dev : option string) :
  methods.getActiveDevices (methods.logoutAllDevices nows r) = methods.getActiveDevices r /\
  methods.getActiveDevices (snd (methods.logoutDevice now r dev)) =
  methods.getActiveDevices r /\
  map sum_deviceId (methods.getActiveDevices r) = map deviceId (loggedInDevices r).
Proof.
  unfold methods.getActiveDevices. split; [|split].
  - unfold methods.logoutAllDevices. cbn [loggedInDevices set_refreshTokens set_loggedInDevices].
    generalize 0%nat. induction (loggedInDevices r) as [|d rest IH]; intros i; [reflexivity|].
    cbn [signOutFrom map]. rewrite IH, summary_signOut. reflexivity.
  - unfold methods.logoutDevice. destruct (truthy dev) as [id|]; [|reflexivity].
    destruct (findDevice id (loggedInDevices r)) as [d0|]; [|reflexivity].
    cbn [snd loggedInDevices set_loggedInDevices]. clear d0.
    induction (loggedInDevices r) as [|d rest IH]; [reflexivity|].
    cbn [updateDevice]. destruct (String.eqb (deviceId d) id); cbn [map].
    + rewrite summary_signOut. reflexivity.
    + rewrite IH. reflexivity.
  - rewrite map_map. reflexivity.
Qed.

(** What signing out does to a history: nothing when it is empty; else
    the last entry gets a [logoutAt] if it had none, and the entries before
    it stay. *)
Lemma closeLast_cases (now : Time) (h : list LoginEvent) :
  (h = [] /\ closeLast now h = []) \/
  (exists pre e t,
     h = pre ++ [e] /\
     closeLast now h = pre ++ [mkLoginEvent (loginAt e) (Some t)] /\
     (logoutAt e = None /\ t = now \/ logoutAt e = Some t)).
Proof.
  destruct h as [|x rest] eqn:H; [left; auto|]. right. rewrite <- H.
  destruct (@exists_last _ h) as (pre & e & ->); [congruence|].
  rewrite closeLast_snoc. unfold closeEvent.
  destruct (logoutAt e) as [t|] eqn:L.
  - exists pre, e, t. split; [reflexivity|]. split; [|auto].
    destruct e as [la lo]. simpl in L. subst lo. reflexivity.
  - exists pre, e, now. auto.
Qed.

(** X4.  [logoutAllDevices] empties [refreshTokens] and keeps the devices
    one for one, with their id, address, agent and [loginCount]; each ends
    without a token, and its history is the old one except that the last
    entry, when there is one, is closed: a [logoutAt] that was set is kept,
    one that was not is set to the clock. *)
Theorem logoutAllDevices_closes_the_last_entry_of_each_history
    (nows : nat -> Time) (r : UserLogin) :
  refreshTokens (methods.logoutAllDevices nows r) = [] /\
  Forall2
    (fun d d' =>
       deviceId d' = deviceId d /\ ipAddress d' = ipAddress d /\
       userAgent d' = userAgent d /\ loginCount d' = loginCount d /\
       refreshToken d' = None /\
       ((loginHistory d = [] /\ loginHistory d' = []) \/
        exists pre e t,
          loginHistory d = pre ++ [e] /\
          loginHistory d' = pre ++ [mkLoginEvent (loginAt e) (Some t)] /\
          (logoutAt e = None \/ logoutAt e = Some t)))
    (loggedInDevices r) (loggedInDevices (methods.logoutAllDevices nows r)).
Proof.
  split; [reflexivity|].
  unfold methods.logoutAllDevices. cbn [loggedInDevices set_refreshTokens set_loggedInDevices].
  generalize 0%nat. induction (loggedInDevices r) as [|d rest IH]; intros i.
  - constructor.
  - cbn [signOutFrom]. constructor; [|apply IH].
    cbn [signOut deviceId ipAddress userAgent loginCount refreshToken loginHistory].
    repeat (split; [reflexivity|]).
    destruct (closeLast_cases (nows i) (loginHistory d))
      as [[E C]|(pre & e & t & E & C & K)]; [left; auto|].
    right. exists pre, e, t. split; [exact E|]. split; [exact C|]. tauto.
Qed.

(** X5.  [authService.logout] throws "Device not found", and stores the
    document as it found it, exactly when the device id resolves to no
    session.  When it succeeds, [isLoggedIn] is [false] if no device is left
    with a token, and keeps its value otherwise; the list of refresh tokens
    is not touched. *)
Theorem logout_recomputes_isLoggedIn
    (now : Time) (r : UserLogin) (dev : option string) :
  (authService.logout now (Some r) dev = (inl DeviceNotFound, Some r) <->
   ~ exists d, resolvesTo r dev d) /\
  (forall saved,
     authService.logout now (Some r) dev = (inr tt, Some saved) ->
     (exists d, resolvesTo r dev d) /\
     refreshTokens saved = refreshTokens r /\
     (allSignedOut saved -> isLoggedIn saved = false) /\
     (~ allSignedOut saved -> isLoggedIn saved = isLoggedIn r)).
Proof.
  pose proof (logoutDevice_known now r dev) as K.
  unfold authService.logout, authService.found_or.
  destruct (methods.logoutDevice now r dev) as [ok r1] eqn:L. cbn [fst] in K.
  assert (RT : refreshTokens r1 = refreshTokens r /\ isLoggedIn r1 = isLoggedIn r).
  { pose proof (f_equal snd L) as S. cbn [snd] in S. subst r1.
    unfold methods.logoutDevice. destruct (truthy dev) as [id|]; [|split; reflexivity].
    destruct (findDevice id (loggedInDevices r)); split; reflexivity. }
  destruct RT as [RT LI].
  destruct ok; cbn [negb].
  - split.
    + split; [discriminate|]. intros N. exfalso. apply N, K. reflexivity.
    + intros saved E. injection E as <-. split; [apply K; reflexivity|].
      assert (A : (List.length (authService.activeDevices r1) =? 0)%nat = true <->
                  allSignedOut r1).
      { rewrite Nat.eqb_eq, length_zero_iff_nil. unfold authService.activeDevices, allSignedOut.
        induction (loggedInDevices r1) as [|d rest IH]; cbn [filter In].
        - split; [intros _ d [] | reflexivity].
        - destruct (refreshToken d) eqn:R.
          + split; [discriminate|]. intros H. specialize (H d (or_introl eq_refl)). congruence.
          + rewrite IH. split.
            * intros H x [<-|I]; auto.
            * intros H x I. apply H. auto. }
      destruct (List.length (authService.activeDevices r1) =? 0)%nat eqn:Z.
      * split; [exact RT|]. split; [reflexivity|]. intros N. exfalso. apply N.
        intros d I. apply A; [reflexivity | exact I].
      * split; [exact RT|]. split; [|intros _; exact LI]. intros S.
        apply A in S. congruence.
  - split.
    + split; [intros _ | reflexivity]. intros S. apply K in S. discriminate.
    + discriminate.
Qed.

(** ** More on failure counting *)

Section LoginFrame.

Context {hasher : PasswordHasher} {config : TokenConfig}.

(** X6.  A login that throws stores the sessions as they were: the
    devices, the list of refresh tokens, [isLoggedIn], [lastLogin], the
    password and the permanent lock are not written; and unless the error is
    "Invalid login credentials" nothing is written at all. *)
Theorem a_login_that_fails_writes_the_counters_only
    (a : Attempt) (r : UserLogin) (e : AuthError) :
  fst (attempt a r) = inl e ->
  let saved := snd (attempt a r) in
  loggedInDevices saved = loggedInDevices r /\
  refreshTokens saved = refreshTokens r /\
  isLoggedIn saved = isLoggedIn r /\
  lastLogin saved = lastLogin r /\
  password saved = password r /\
  isPermanentlyLocked saved = isPermanentlyLocked r /\
  (e <> InvalidCredentials -> saved = r).
Proof.
  intros E.
  destruct (attempt_cases a r)
    as [[_ K]|[(_ & _ & K)|[(_ & _ & _ & K)|[(_ & _ & K)|[(_ & K)|(_ & _ & _ & res & K)]]]]];
    rewrite K in *; cbn [fst snd] in *; try (repeat split; reflexivity).
  - injection E as <-. unfold authService.countFailure. cbn.
    destruct (5 <=? failedLoginAttempts r + 1); cbn; repeat split; congruence.
  - discriminate.
Qed.

(** X7.  The counter is not reset when a lock runs out: in a run of failed
    logins every failure from the fifth on, each of which can only come
    after the lock before it has run out, sets the lock again, fifteen
    minutes from its own clock. *)
Theorem every_failure_from_the_fifth_on_locks_again
    (r : UserLogin) (l : list Attempt) (a : Attempt) :
  Forall (fun x => x = inl InvalidCredentials) (fst (logins (l ++ [a]) r)) ->
  4 <= failedLoginAttempts r + Z.of_nat (List.length l) ->
  let before := snd (logins l r) in
  let saved := snd (logins (l ++ [a]) r) in
  authService.lockPending (at_lockTest (att_clock a)) before = false /\
  failedLoginAttempts saved = failedLoginAttempts r + Z.of_nat (List.length l) + 1 /\
  lockLevel saved = 1 /\
  lockUntil saved = Some (at_lockStart (att_clock a) + 900000).
Proof.
  intros F G before saved. subst saved. rewrite logins_app in *. cbn [fst snd] in *.
  fold before in F |- *.
  apply Forall_app in F. destruct F as [Fl Fa].
  apply Forall_cons_iff in Fa. destruct Fa as [Fa _].
  pose proof (logins_failures l r Fl) as S. cbn zeta in S. fold before in S.
  destruct S as (N & _ & _).
  destruct (attempt a before) as [x saved] eqn:E. cbn [fst snd] in *. subst x.
  apply attempt_invalid in E. destruct E as (_ & L & _ & ->).
  split; [exact L|]. rewrite countFailure_count.
  split; [lia|]. apply countFailure_locks. lia.
Qed.

End LoginFrame.

(** ** What every operation keeps *)

Lemma activeDevices_none (r : UserLogin) :
  (List.length (authService.activeDevices r) =? 0)%nat = true <-> allSignedOut r.
Proof.
  rewrite Nat.eqb_eq, length_zero_iff_nil. unfold authService.activeDevices, allSignedOut.
  induction (loggedInDevices r) as [|d rest IH]; cbn [filter In].
  - split; [intros _ d [] | reflexivity].
  - destruct (refreshToken d) eqn:R.
    + split; [discriminate|]. intros H. specialize (H d (or_introl eq_refl)). congruence.
    + rewrite IH. split.
      * intros H x [<-|I]; auto.
      * intros H x I. apply H. auto.
Qed.

Lemma issued_ids `{TokenConfig} (clk : IssueClock) (r : UserLogin) (dev ip ua : option string) :
  exists extra,
    map deviceId (loggedInDevices (snd (methods.generateRefreshToken clk r dev ip ua))) =
    map deviceId (loggedInDevices r) ++ extra.
Proof.
  unfold methods.generateRefreshToken. cbn [snd].
  destruct (truthy dev) as [id|]; [|exists []; rewrite app_nil_r; reflexivity].
  cbn [loggedInDevices set_refreshTokens].
  destruct (findDevice id (loggedInDevices r));
    cbn [loggedInDevices set_loggedInDevices].
  - exists []. rewrite app_nil_r. apply map_deviceId_updateDevice. reflexivity.
  - eexists. rewrite map_app. reflexivity.
Qed.

Section Preservation.

Context {hasher : PasswordHasher} {config : TokenConfig}.

Lemma perform_written (op : Operation) (r : UserLogin) : Written r (perform op r).
Proof.
  destruct op as [a|clk tok dev|now dev|now|tok|salt now old new|now reason|];
    unfold perform.
  - destruct (attempt_cases a r)
      as [[_ K]|[(_ & _ & K)|[(_ & _ & _ & K)|[(_ & _ & K)|[(_ & K)|(_ & _ & _ & res & K)]]]]];
      rewrite K; cbn [snd]; constructor.
  - unfold authService.refreshTokens, authService.found_or, stored.
    destruct (jwt_verify REFRESH_TOKEN_SECRET tok (at_verify clk)) as [[|]|c];
      try constructor.
    destruct (methods.verifyRefreshTokenForDevice r tok dev) eqn:V; cbn [negb];
      [|constructor].
    pose proof (WrittenRefresh r (at_newIssue clk) tok dev V) as W.
    destruct (methods.generateRefreshToken (at_newIssue clk) r dev None None) as [new r1].
    exact W.
  - unfold authService.logout, authService.found_or, stored.
    pose proof (WrittenLogout r now dev) as W.
    destruct (methods.logoutDevice now r dev) as [ok r1]. cbn [fst snd] in *.
    destruct ok; cbn [negb snd]; [|constructor].
    destruct (List.length (authService.activeDevices r1) =? 0)%nat eqn:Z.
    + apply (W false eq_refl). left. apply activeDevices_none. exact Z.
    + apply (W true eq_refl). auto.
  - constructor.
  - constructor.
  - unfold authService.changePassword, authService.found_or, stored.
    destruct (methods.comparePassword r old); cbn [negb snd]; [|constructor].
    unfold methods.savePassword.
    destruct (String.eqb new (password r)); constructor.
  - constructor.
  - constructor.
Qed.

End Preservation.

Section Invariants.

Context {hasher : PasswordHasher} {config : TokenConfig}.

Lemma signed_out_stays_signed_out (now : Time) (r : UserLogin) (dev : option string) :
  allSignedOut r -> allSignedOut (snd (methods.logoutDevice now r dev)).
Proof.
  intros A. unfold methods.logoutDevice.
  destruct (truthy dev) as [id|]; [|exact A].
  destruct (findDevice id (loggedInDevices r)) as [d0|]; [|exact A].
  intros d I. cbn in I. apply In_updateDevice in I.
  destruct I as [I|(x & _ & ->)]; [exact (A d I) | reflexivity].
Qed.

Lemma logoutDevice_scalars (now : Time) (r : UserLogin) (dev : option string) :
  let r1 := snd (methods.logoutDevice now r dev) in
  isLoggedIn r1 = isLoggedIn r /\
  failedLoginAttempts r1 = failedLoginAttempts r /\
  lockLevel r1 = lockLevel r /\ lockUntil r1 = lockUntil r /\
  map deviceId (loggedInDevices r1) = map deviceId (loggedInDevices r).
Proof.
  unfold methods.logoutDevice.
  destruct (truthy dev) as [id|]; [|cbn; tauto].
  destruct (findDevice id (loggedInDevices r)); [|cbn; tauto].
  cbn. repeat split. apply map_deviceId_updateDevice. reflexivity.
Qed.

Lemma written_lockConsistent (r r' : UserLogin) :
  Written r r' -> lockConsistent r -> lockConsistent r'.
Proof.
  unfold lockConsistent.
  intros W (N & C). destruct W.
  - split; [exact N | exact C].
  - rewrite countFailure_count.
    destruct (Z_lt_le_dec (failedLoginAttempts r + 1) 5) as [B|B].
    + destruct (countFailure_below now r B) as [-> ->]. split; [lia|]. left.
      destruct C as [C|C]; [|lia]. split; [lia | tauto].
    + destruct (countFailure_locks now r B) as [-> ->]. split; [lia|]. right.
      split; [lia|]. split; [reflexivity | discriminate].
  - destruct (issued_scalars clk (authService.resetOnSuccess now r) dev ip ua)
      as (_ & _ & -> & -> & -> & _). cbn. split; [lia|]. left. repeat split; lia.
  - destruct (issued_scalars clk r dev None None) as (_ & _ & -> & -> & -> & _).
    split; [exact N | exact C].
  - destruct (logoutDevice_scalars now r dev) as (_ & F & L & U & _).
    destruct keep; cbn; rewrite F, L, U; split; assumption.
  - cbn. split; [exact N | exact C].
  - cbn. split; [exact N | exact C].
  - cbn. split; [exact N | exact C].
  - cbn. split; [exact N | exact C].
  - cbn. split; [lia|]. left. repeat split; lia.
Qed.

Lemma written_noTokenWhenLoggedOut (r r' : UserLogin) :
  Written r r' -> noTokenWhenLoggedOut r -> noTokenWhenLoggedOut r'.
Proof.
  unfold noTokenWhenLoggedOut.
  intros W K. destruct W; try exact K.
  - unfold authService.countFailure. cbn.
    destruct (5 <=? failedLoginAttempts r + 1); exact K.
  - destruct (issued_scalars clk (authService.resetOnSuccess now r) dev ip ua)
      as (_ & _ & _ & _ & _ & _ & -> & _). cbn. discriminate.
  - destruct (issued_scalars clk r dev None None) as (_ & _ & _ & _ & _ & _ & -> & _).
    intros L. rewrite (allSignedOut_verifies_nothing r (K L)) in H. discriminate.
  - destruct (logoutDevice_scalars now r dev) as (LI & _).
    destruct keep.
    + rewrite LI. intros L. apply signed_out_stays_signed_out, K, L.
    + intros _. destruct H0 as [A|A]; [exact A | discriminate].
  - intros _ d I. exact (signOutFrom_signed_out _ _ _ _ I).
  - intros _ d I. exact (signOutFrom_signed_out _ _ _ _ I).
  - intros _ d I. exact (signOutFrom_signed_out _ _ _ _ I).
Qed.

Lemma written_ids (r r' : UserLogin) :
  Written r r' ->
  exists extra,
    map deviceId (loggedInDevices r') = map deviceId (loggedInDevices r) ++ extra.
Proof.
  intros W. destruct W;
    try (exists []; rewrite app_nil_r; reflexivity);
    try (exists []; rewrite app_nil_r; cbn; apply signOutFrom_ids).
  - exists []. rewrite app_nil_r. unfold authService.countFailure. cbn.
    destruct (5 <=? failedLoginAttempts r + 1); reflexivity.
  - apply (issued_ids clk (authService.resetOnSuccess now r)).
  - apply issued_ids.
  - exists []. rewrite app_nil_r.
    destruct (logoutDevice_scalars now r dev) as (_ & _ & _ & _ & E).
    destruct keep; exact E.
Qed.

(** X8.  The lock fields always agree with the counter.  On a new
    document, and after every operation of the service on a document where
    it held: [failedLoginAttempts] is not negative, and either it is below
    five with [lockLevel = 0] and no [lockUntil], or it is five or more with
    [lockLevel = 1] and [lockUntil] set.  In particular [lockLevel] never
    goes beyond 1. *)
Theorem lock_fields_agree_with_the_counter :
  (forall userId name hash, lockConsistent (newUserLogin userId name hash)) /\
  (forall op r, lockConsistent r -> lockConsistent (perform op r)).
Proof.
  split.
  - intros. unfold lockConsistent. cbn. split; [lia|]. left. repeat split; lia.
  - intros op r. apply written_lockConsistent, perform_written.
Qed.

(** X9.  A document with [isLoggedIn = false] never holds a device token:
    this holds on a new document and is kept by every operation of the
    service, [revokeToken] included. *)
Theorem not_logged_in_means_no_device_token :
  (forall userId name hash, noTokenWhenLoggedOut (newUserLogin userId name hash)) /\
  (forall op r, noTokenWhenLoggedOut r -> noTokenWhenLoggedOut (perform op r)).
Proof.
  split.
  - intros userId name hash _ d [].
  - intros op r. apply written_noTokenWhenLoggedOut, perform_written.
Qed.

(** X11.  No operation of the service removes or reorders a device
    session: the ids of the devices after it are the ids before it,
    followed by at most the ids it added. *)
Theorem device_sessions_are_never_deleted (op : Operation) (r : UserLogin) :
  exists extra,
    map deviceId (loggedInDevices (perform op r)) =
    map deviceId (loggedInDevices r) ++ extra.
Proof. apply written_ids, perform_written. Qed.

End Invariants.

(** ** Refresh, and tokens across calls *)

Lemma generateRefreshToken_on_device
    `{TokenConfig} (clk : IssueClock) (r : UserLogin) (dev ip ua : option string) (id : string) :
  truthy dev = Some id ->
  let tok := fst (methods.generateRefreshToken clk r dev ip ua) in
  let saved := snd (methods.generateRefreshToken clk r dev ip ua) in
  match findDevice id (loggedInDevices r) with
  | Some d0 =>
      List.length (loggedInDevices saved) = List.length (loggedInDevices r) /\
      findDevice id (loggedInDevices saved) =
      Some (mkDevice id
              (match truthy ip with Some x => Some x | None => ipAddress d0 end)
              (match truthy ua with Some x => Some x | None => userAgent d0 end)
              (loginCount d0 + 1) (Some tok)
              (loginHistory d0 ++ [mkLoginEvent (at_loginAt clk) None]))
  | None =>
      loggedInDevices saved =
      loggedInDevices r ++
      [mkDevice id (truthy ip) (truthy ua) 1 (Some tok)
         [mkLoginEvent (at_loginAt clk) None]]
  end.
Proof.
  intros T tok saved. subst tok saved.
  unfold methods.generateRefreshToken. cbn [fst snd]. rewrite T.
  cbn [loggedInDevices set_refreshTokens].
  destruct (findDevice id (loggedInDevices r)) as [d0|] eqn:F;
    cbn [loggedInDevices set_loggedInDevices].
  - split.
    + rewrite <- (length_map deviceId), map_deviceId_updateDevice by reflexivity.
      apply length_map.
    + rewrite findDevice_updateDevice by reflexivity. rewrite F.
      apply findDevice_In in F. destruct F as [_ <-]. reflexivity.
  - reflexivity.
Qed.

Section Refresh.

Context {config : TokenConfig}.

(** What decides a refresh on a document that is found. *)
Lemma refresh_cases (clk : RefreshClock) (r : UserLogin) (tok : Token) (dev : option string) :
  let o := authService.refreshTokens clk (Some r) tok dev in
  (jwt_verify REFRESH_TOKEN_SECRET tok (at_verify clk) = inl TokenExpiredError /\
   o = (inl RefreshTokenExpired, Some r)) \/
  (jwt_verify REFRESH_TOKEN_SECRET tok (at_verify clk) = inl JsonWebTokenError /\
   o = (inl RefreshTokenInvalid, Some r)) \/
  ((exists c, jwt_verify REFRESH_TOKEN_SECRET tok (at_verify clk) = inr c) /\
   methods.verifyRefreshTokenForDevice r tok dev = false /\
   o = (inl DeviceTokenMismatch, Some r)) \/
  ((exists c, jwt_verify REFRESH_TOKEN_SECRET tok (at_verify clk) = inr c) /\
   methods.verifyRefreshTokenForDevice r tok dev = true /\
   o = (inr (mkRefreshResult
               (methods.generateAccessToken (at_newAccess clk) r)
               (fst (methods.generateRefreshToken (at_newIssue clk) r dev None None))),
        Some (snd (methods.generateRefreshToken (at_newIssue clk) r dev None None)))).
Proof.
  unfold authService.refreshTokens, authService.found_or.
  destruct (jwt_verify REFRESH_TOKEN_SECRET tok (at_verify clk)) as [[|]|c]; auto.
  right; right.
  destruct (methods.verifyRefreshTokenForDevice r tok dev); cbn [negb].
  - right. split; [eauto|]. split; [reflexivity|].
    destruct (methods.generateRefreshToken (at_newIssue clk) r dev None None).
    reflexivity.
  - left. split; [eauto|]. auto.
Qed.

(** X13.  A refresh that throws stores the document as it found it, and
    a refresh that succeeds writes the two arrays only: the failure counter,
    the lock fields, [isLoggedIn], [lastLogin] and the password are never
    written by [refreshTokens]. *)
Theorem refresh_never_writes_the_lock_state
    (clk : RefreshClock) (r : UserLogin) (tok : Token) (dev : option string) :
  exists saved,
    snd (authService.refreshTokens clk (Some r) tok dev) = Some saved /\
    failedLoginAttempts saved = failedLoginAttempts r /\
    lockLevel saved = lockLevel r /\
    lockUntil saved = lockUntil r /\
    isPermanentlyLocked saved = isPermanentlyLocked r /\
    isLoggedIn saved = isLoggedIn r /\
    lastLogin saved = lastLogin r /\
    password saved = password r /\
    (forall e, fst (authService.refreshTokens clk (Some r) tok dev) = inl e -> saved = r).
Proof.
  destruct (refresh_cases clk r tok dev) as [[_ E]|[[_ E]|[(_ & _ & E)|(_ & _ & E)]]];
    cbn zeta in E; rewrite E; cbn [fst snd];
    try (exists r; repeat split; reflexivity).
  eexists. split; [reflexivity|].
  destruct (issued_scalars (at_newIssue clk) r dev None None)
    as (_ & P & F & L & U & PL & LI & LL).
  repeat split; try assumption. discriminate.
Qed.


End Refresh.

Section TokensAcrossCalls.

Context {hasher : PasswordHasher} {config : TokenConfig}.

Lemma jwt_verify_signed (key : Secret) (id : ObjectId) (uname : option string)
    (expiresIn : Z) (now t : Time) :
  jwt_verify key (jwt_sign key id uname expiresIn now) t =
  if now / 1000 + expiresIn <=? t / 1000 then inl TokenExpiredError
  else inr (mkClaims id uname (now / 1000) (now / 1000 + expiresIn)).
Proof.
  unfold jwt_verify, jwt_sign. destruct key; reflexivity.
Qed.

(** A login that resolves went through every check. *)
Lemma attempt_succeeded (a : Attempt) (r : UserLogin) (res : LoginResult) (saved : UserLogin) :
  attempt a r = (inr res, saved) ->
  isPermanentlyLocked r = false /\
  authService.lockPending (at_lockTest (att_clock a)) r = false /\
  methods.comparePassword r (att_password a) = true /\
  exists u,
    att_account a = Some u /\ canLogin u && isActive u = true /\
    res = mkLoginResult u
            (methods.generateAccessToken (at_access (att_clock a))
               (authService.resetOnSuccess (at_lastLogin (att_clock a)) r))
            (fst (methods.generateRefreshToken (at_issue (att_clock a))
                    (authService.resetOnSuccess (at_lastLogin (att_clock a)) r)
                    (att_deviceId a) (att_ipAddress a) (att_userAgent a)))
            false (att_deviceId a) /\
    saved = snd (methods.generateRefreshToken (at_issue (att_clock a))
                   (authService.resetOnSuccess (at_lastLogin (att_clock a)) r)
                   (att_deviceId a) (att_ipAddress a) (att_userAgent a)).
Proof.
  intros E.
  destruct (isPermanentlyLocked r) eqn:P.
  { rewrite (attempt_permanent a r P) in E. discriminate. }
  destruct (authService.lockPending (at_lockTest (att_clock a)) r) eqn:L.
  { rewrite (attempt_temporary a r P L) in E. discriminate. }
  destruct (methods.comparePassword r (att_password a)) eqn:C.
  2:{ rewrite (attempt_wrong_password a r P L C) in E. discriminate. }
  destruct (att_account a) as [u|] eqn:U.
  2:{ rewrite (attempt_no_account a r P L C U) in E. discriminate. }
  destruct (canLogin u && isActive u) eqn:D.
  2:{ rewrite (attempt_disabled a r u P L C U D) in E. discriminate. }
  rewrite (attempt_success a r u P L C U D) in E. cbn zeta in E.
  injection E as <- <-. repeat split. exists u. repeat split; auto.
Qed.

(** A lookup by [_id] in a collection that has no document under it. *)
Lemma findById_none (id : ObjectId) (c : Collection) :
  noDocumentUnder id c -> UserLogins.findById id c = None.
Proof.
  unfold UserLogins.findById, noDocumentUnder, Collection, ObjectId in *.
  induction c as [|e c IH]; intros N; [reflexivity|].
  cbn [find]. cbv beta. destruct (Z.eqb_spec (fst e) id) as [E|E].
  - exfalso. apply (N e); [left; reflexivity | exact E].
  - apply IH. intros x I. apply N. right. exact I.
Qed.

(** [refreshTokens] on a collection, for a token that verifies and whose
    [id] claim is the [_id] of no document. *)
Lemma refreshTokensIn_no_document (clk : RefreshClock) (c : Collection)
    (tok : Token) (dev : option string) (claims : Claims) :
  jwt_verify REFRESH_TOKEN_SECRET tok (at_verify clk) = inr claims ->
  noDocumentUnder (jwt_id claims) c ->
  refreshTokensIn clk c tok dev = (inl UserNotFound, None).
Proof.
  intros J N. unfold refreshTokensIn, authService.refreshTokens.
  rewrite J, (findById_none _ _ N). reflexivity.
Qed.

(** X15.  [refreshTokens] looks the document up with
    [findById(decoded.id)], and [decoded.id] is the [user] of the document
    that signed the token.  In a collection that holds no document under
    that id as its [_id], the refresh token a login returned is therefore
    never accepted, for any device id: as long as the clock in seconds is
    below the second of its signature plus [REFRESH_TOKEN_EXPIRY] the call
    throws "User not found", from that second on it throws "Refresh token
    has expired", and it never reaches a document. *)
Theorem refresh_never_finds_the_document_of_a_login
    (c : Collection) (a : Attempt) (r : UserLogin) (res : LoginResult) (saved : UserLogin)
    (clk : RefreshClock) (dev : option string) :
  attempt a r = (inr res, saved) ->
  noDocumentUnder (user r) c ->
  let expiry := at_sign (at_issue (att_clock a)) / 1000 + refreshTokenExpiry in
  let o := refreshTokensIn clk c (res_refreshToken res) dev in
  (at_verify clk / 1000 < expiry -> o = (inl UserNotFound, None)) /\
  (expiry <= at_verify clk / 1000 -> o = (inl RefreshTokenExpired, None)).
Proof.
  intros E N expiry o.
  apply attempt_succeeded in E. destruct E as (_ & _ & _ & u & _ & _ & -> & _).
  cbn [res_refreshToken] in o.
  set (r1 := authService.resetOnSuccess (at_lastLogin (att_clock a)) r) in *.
  set (clk0 := at_issue (att_clock a)) in *.
  pose proof (issued_token clk0 r1 (att_deviceId a) (att_ipAddress a) (att_userAgent a)) as Tk.
  assert (J : jwt_verify REFRESH_TOKEN_SECRET
                (fst (methods.generateRefreshToken clk0 r1 (att_deviceId a)
                        (att_ipAddress a) (att_userAgent a)))
                (at_verify clk) =
              if expiry <=? at_verify clk / 1000 then inl TokenExpiredError
              else inr (mkClaims (user r) None (at_sign clk0 / 1000) expiry)).
  { rewrite Tk. apply jwt_verify_signed. }
  split; intros B.
  - apply Z.leb_gt in B. rewrite B in J.
    exact (refreshTokensIn_no_document clk c _ dev _ J N).
  - apply Z.leb_le in B. rewrite B in J.
    unfold o, refreshTokensIn, authService.refreshTokens. rewrite J. reflexivity.
Qed.

(** X17.  The access token of a document is accepted by
    [validateAccessToken], with the user id and the username of the document
    as its claims, as long as the clock in seconds is below the second of
    its signature plus [ACCESS_TOKEN_EXPIRY], and is thrown as expired from
    that second on. *)
Theorem access_tokens_validate_until_they_expire
    (now t : Time) (r : UserLogin) :
  (t / 1000 < now / 1000 + accessTokenExpiry ->
   authService.validateAccessToken t (methods.generateAccessToken now r) =
   inr (mkClaims (user r) (Some (username r)) (now / 1000)
          (now / 1000 + accessTokenExpiry))) /\
  (now / 1000 + accessTokenExpiry <= t / 1000 ->
   authService.validateAccessToken t (methods.generateAccessToken now r) =
   inl AccessTokenExpired).
Proof.
  unfold authService.validateAccessToken, methods.generateAccessToken.
  rewrite jwt_verify_signed. split.
  - intros B. apply Z.leb_gt in B. rewrite B. reflexivity.
  - intros B. apply Z.leb_le in B. rewrite B. reflexivity.
Qed.

End TokensAcrossCalls.

Section Unlock.

Context {hasher : PasswordHasher} {config : TokenConfig}.

(** X18.  [unlockAccount] lifts both locks and resets the counter, and
    writes nothing else: the devices, the list of refresh tokens,
    [isLoggedIn] and the password stay.  Unlocking again stores the same
    document, a login on the unlocked document is never refused as locked,
    and an unlock after [lockAccount] restores no session: all devices are
    still signed out and the list is still empty. *)
Theorem unlockAccount_lifts_the_locks_and_restores_no_session (r : UserLogin) :
  exists saved,
    authService.unlockAccount (Some r) = (inr tt, Some saved) /\
    isPermanentlyLocked saved = false /\ failedLoginAttempts saved = 0 /\
    lockLevel saved = 0 /\ lockUntil saved = None /\
    loggedInDevices saved = loggedInDevices r /\
    refreshTokens saved = refreshTokens r /\
    isLoggedIn saved = isLoggedIn r /\ password saved = password r /\
    authService.unlockAccount (Some saved) = (inr tt, Some saved) /\
    (forall a minutes,
       fst (attempt a saved) <> inl AccountLockedPermanent /\
       fst (attempt a saved) <> inl (AccountLockedTemporary minutes)) /\
    (forall now reason,
       let locked := stored r (authService.lockAccount now (Some r) reason) in
       let unlocked := stored locked (authService.unlockAccount (Some locked)) in
       isPermanentlyLocked unlocked = false /\ allSignedOut unlocked /\
       refreshTokens unlocked = [] /\ isLoggedIn unlocked = false).
Proof.
  eexists. split; [reflexivity|]. repeat (split; [reflexivity|]). split.
  - intros a minutes.
    match goal with |- context [attempt a ?s] => set (saved := s) end.
    destruct (attempt_cases a saved)
      as [[P _]|[(_ & L & _)|[(_ & _ & _ & K)|[(_ & _ & K)|[(_ & K)|(_ & _ & _ & res & K)]]]]];
      try discriminate; rewrite K; cbn [fst]; split; discriminate.
  - intros now reason. cbn. repeat split.
    intros d I. exact (signOutFrom_signed_out _ _ _ _ I).
Qed.

End Unlock.

(** ** Expiry strings *)

Lemma unsnoc_snoc (s : string) (c : ascii) :
  unsnoc (s ++ String c "") = Some (s, c).
Proof.
  induction s as [|x s IH]; [reflexivity|].
  cbn [append unsnoc]. rewrite IH. reflexivity.
Qed.

Lemma append_snoc_not_empty (s : string) (c : ascii) :
  (s ++ String c "")%string <> "".
Proof. destruct s; discriminate. Qed.

Lemma string_of_uint_not_empty (d : Decimal.uint) :
  d <> Decimal.Nil -> NilEmpty.string_of_uint d <> "".
Proof. destruct d; [congruence | discriminate ..]. Qed.

Lemma to_uint_not_Nil (n : N) : N.to_uint n <> Decimal.Nil.
Proof.
  destruct n as [|p]; [discriminate|]. apply DecimalPos.Unsigned.to_uint_nonnil.
Qed.

Lemma decimal_not_empty (n : N) : decimal n <> "".
Proof. apply string_of_uint_not_empty, to_uint_not_Nil. Qed.

Lemma decimal_inj (n m : N) : decimal n = decimal m -> n = m.
Proof.
  unfold decimal. intros E. apply DecimalN.Unsigned.to_uint_inj.
  apply (f_equal NilEmpty.uint_of_string) in E. rewrite !NilEmpty.usu in E.
  congruence.
Qed.

Lemma unitMs_values (c : ascii) (ms : Z) :
  unitMs c = Some ms ->
  In (c, ms)
    [("m"%char, 60000); ("M"%char, 60000); ("h"%char, 3600000);
     ("H"%char, 3600000); ("d"%char, 86400000); ("D"%char, 86400000)].
Proof.
  unfold unitMs.
  repeat match goal with
         | |- context [Ascii.eqb c ?x] =>
             destruct (Ascii.eqb_spec c x); [subst; cbn; intros [= <-]; tauto|]
         end.
  cbn. discriminate.
Qed.

Lemma matchExpiry_decimal (n : N) (unit : ascii) (ms : Z) :
  unitMs unit = Some ms ->
  matchExpiry (decimal n ++ String unit "") = Some (n, unit).
Proof.
  intros U. unfold matchExpiry. rewrite unsnoc_snoc.
  destruct (String.eqb_spec (decimal n) "") as [E|_].
  { exfalso. exact (decimal_not_empty n E). }
  unfold decimal. rewrite NilEmpty.usu, U, DecimalN.Unsigned.of_to. reflexivity.
Qed.

(** X19.  [convertExpiryToMs] reads a number followed by one of the letters
    m, h, d, in either case, as that many minutes, hours or days in
    milliseconds, for every number whose result stays in the range where
    JavaScript numbers are exact. *)
Theorem convertExpiryToMs_reads_a_number_and_a_unit (n : N) (unit : ascii) (ms : Z) :
  In (unit, ms)
    [("m"%char, 60000); ("M"%char, 60000); ("h"%char, 3600000);
     ("H"%char, 3600000); ("d"%char, 86400000); ("D"%char, 86400000)] ->
  Z.of_N n * ms <= 2 ^ 53 ->
  convertExpiryToMs (Some (decimal n ++ String unit "")%string) = Some (Z.of_N n * ms).
Proof.
  intros I _.
  assert (U : unitMs unit = Some ms).
  { cbn in I. repeat (destruct I as [[= <- <-]|I]; [reflexivity|]). destruct I. }
  unfold convertExpiryToMs, truthy.
  destruct (String.eqb_spec (decimal n ++ String unit "") "") as [E|_].
  { exfalso. exact (append_snoc_not_empty _ _ E). }
  rewrite (matchExpiry_decimal n unit ms U), U. reflexivity.
Qed.

Lemma convertExpiryToMs_number (s : string) :
  s <> "" ->
  withinExactRange s = true ->
  exists ms,
    convertExpiryToMs (Some s) = Some ms /\ 0 <= ms <= 2 ^ 53 /\ (60000 | ms) /\
    (matchExpiry s = None -> ms = 604800000).
Proof.
  intros N R. unfold convertExpiryToMs, truthy. unfold withinExactRange in R.
  destruct (String.eqb_spec s "") as [E|_]; [contradiction|].
  destruct (matchExpiry s) as [[n u]|] eqn:M.
  - unfold matchExpiry in M. destruct (unsnoc s) as [[ds c]|]; [|discriminate].
    destruct (String.eqb ds ""); [discriminate|].
    destruct (NilEmpty.uint_of_string ds); [|discriminate].
    destruct (unitMs c) as [ms|] eqn:U; [|discriminate].
    injection M as <- <-. rewrite U in *. apply Z.leb_le in R.
    eexists. split; [reflexivity|].
    apply unitMs_values in U. cbn in U.
    split; [|split; [|discriminate]].
    + split; [|exact R].
      repeat (destruct U as [[= _ <-]|U]; [lia|]). destruct U.
    + repeat (destruct U as [[= _ <-]|U];
              [apply Z.divide_mul_r; (exists 1; reflexivity) || (exists 60; reflexivity)
               || (exists 1440; reflexivity)|]).
      destruct U.
  - eexists. split; [reflexivity|]. split; [split; [lia | discriminate]|].
    split; [|reflexivity]. exists 10080. reflexivity.
Qed.

Lemma matchExpiry_other_unit (init : string) (c : ascii) :
  unitMs c = None -> matchExpiry (init ++ String c "") = None.
Proof.
  intros U. unfold matchExpiry. rewrite unsnoc_snoc, U.
  destruct (String.eqb init ""); [reflexivity|].
  destruct (NilEmpty.uint_of_string init); reflexivity.
Qed.

(** X20.  As long as [REFRESH_TOKEN_EXPIRY] keeps the arithmetic in the
    range where JavaScript numbers are exact, the [maxAge] of the refresh
    cookie is a number, never [null]: a number of whole minutes between 0
    and 2^53 milliseconds, the one [getRefreshTokenMaxAge] returns.  It is
    ten days when the variable is unset or empty, and seven days when it is
    set to a string that ends in anything but one of the letters m, h, d,
    such as a number of seconds. *)
Theorem refresh_cookie_maxAge_is_always_a_number (env : Env) :
  withinExactRange (or_else (REFRESH_TOKEN_EXPIRY env) "10d") = true ->
  exists ms,
    getRefreshTokenMaxAge env = Some ms /\
    maxAge (getRefreshTokenCookieOptions env) = Some ms /\
    0 <= ms <= 2 ^ 53 /\ (60000 | ms) /\
    (REFRESH_TOKEN_EXPIRY env = None \/ REFRESH_TOKEN_EXPIRY env = Some "" ->
     ms = 864000000) /\
    (forall init c,
       REFRESH_TOKEN_EXPIRY env = Some (init ++ String c "")%string ->
       ~ In c ["m"; "M"; "h"; "H"; "d"; "D"]%char ->
       ms = 604800000).
Proof.
  intros R.
  unfold getRefreshTokenCookieOptions, getTokenCookieOptions, getRefreshTokenMaxAge.
  cbn [maxAge].
  assert (NE : or_else (REFRESH_TOKEN_EXPIRY env) "10d" <> "").
  { unfold or_else. destruct (truthy (REFRESH_TOKEN_EXPIRY env)) as [s|] eqn:T.
    - apply truthy_Some in T. tauto.
    - discriminate. }
  destruct (convertExpiryToMs_number _ NE R) as (ms & C & P & D & F).
  exists ms. repeat (split; [assumption|]). split.
  - intros U. apply truthy_None in U. unfold or_else in C. rewrite U in C.
    cbn in C. congruence.
  - intros init c E NI. apply F. unfold or_else, truthy. rewrite E.
    destruct (String.eqb_spec (init ++ String c "") "") as [X|_].
    { exfalso. exact (append_snoc_not_empty _ _ X). }
    apply matchExpiry_other_unit.
    destruct (unitMs c) as [x|] eqn:U; [|reflexivity].
    exfalso. apply NI. apply unitMs_values in U. cbn in U. cbn.
    repeat (destruct U as [[= <- _]|U]; [tauto|]). destruct U.
Qed.

(** ** Roles *)

(** X21.  The three role checks are nested: a request that passes
    [verifyEnterpriseAdmin] passes [verifySuperAdmin], and one that passes
    [verifySuperAdmin] passes [verifyAdmin]; each of them either calls
    [next()] with the request as it is or answers 403, and [verifyAdmin]
    passes exactly the roles admin, super_admin and enterprise_admin. *)
Theorem role_checks_are_nested (reqUser : option ReqUser) :
  (verifyEnterpriseAdmin reqUser = MwNext reqUser ->
   verifySuperAdmin reqUser = MwNext reqUser) /\
  (verifySuperAdmin reqUser = MwNext reqUser -> verifyAdmin reqUser = MwNext reqUser) /\
  (verifyAdmin reqUser = MwNext reqUser <->
   exists u, reqUser = Some u /\
             In (role (req_doc u)) ["admin"; "super_admin"; "enterprise_admin"]) /\
  (verifyAdmin reqUser = MwNext reqUser \/ verifyAdmin reqUser = MwStatus 403 AdminRequired).
Proof.
  unfold verifyEnterpriseAdmin, verifySuperAdmin, verifyAdmin, roleOf, includes, truthy.
  destruct reqUser as [u|]; cbn [option_map existsb].
  2:{ repeat split; try discriminate; auto. intros (u & E & _). discriminate. }
  assert (X : forall x : ReqUser,
            (exists u0, Some x = Some u0 /\
               In (role (req_doc u0)) ["admin"; "super_admin"; "enterprise_admin"]) <->
            In (role (req_doc x)) ["admin"; "super_admin"; "enterprise_admin"]).
  { intros x. split; [intros (u0 & [= <-] & I); exact I | intros I; eauto]. }
  rewrite X. clear X. cbn [In]. generalize (role (req_doc u)) as rho. intros rho.
  destruct (String.eqb_spec rho "") as [->|N0]; cbn.
  { repeat split; try discriminate; auto. intros [I|[I|[I|[]]]]; discriminate. }
  destruct (String.eqb_spec rho "enterprise_admin") as [->|N1]; cbn.
  { repeat split; auto. }
  destruct (String.eqb_spec rho "super_admin") as [->|N2]; cbn.
  { repeat split; try discriminate; auto. }
  destruct (String.eqb_spec rho "admin") as [->|N3]; cbn.
  { repeat split; try discriminate; auto. }
  repeat split; try discriminate; auto.
  intros [I|[I|[I|[]]]]; congruence.
Qed.

(** ** Requests *)

Section Requests.

Context {hasher : PasswordHasher} {config : TokenConfig}.


(** X23.  The route [/lock-account] asks for an authenticated user and
    nothing more: what it answers, and what it stores, does not depend on
    the role of the user who sends the request.  Two lookups that return
    documents with the same [canLogin] and [isBlocked] give the same
    outcome. *)
Theorem lock_account_route_does_not_check_the_role
    (secretSet : bool) (now : Time) (token : option Token)
    (findUser findUser' : ObjectId -> option UserDoc) (nows : nat -> Time)
    (findLogin : ObjectId -> option UserLogin)
    (userId : option ObjectId) (reason : option string) :
  (forall id,
     option_map (fun d => (canLogin (doc_flags d), isBlocked d)) (findUser' id) =
     option_map (fun d => (canLogin (doc_flags d), isBlocked d)) (findUser id)) ->
  match postLockAccount secretSet now token findUser nows findLogin userId reason,
        postLockAccount secretSet now token findUser' nows findLogin userId reason with
  | inr o, inr o' => o = o'
  | inl m, inl m' => m = m'
  | _, _ => False
  end.
Proof.
  intros A. unfold postLockAccount, verifyJWT.
  destruct (truthyToken token) as [t|]; [|reflexivity].
  destruct secretSet; cbn [negb]; [|reflexivity].
  destruct (jwt_verify ACCESS_TOKEN_SECRET t now) as [[|]|c]; try reflexivity.
  specialize (A (jwt_id c)).
  destruct (findUser (jwt_id c)) as [d|], (findUser' (jwt_id c)) as [d'|];
    cbn [option_map] in A; try discriminate; [|reflexivity].
  injection A as -> ->.
  destruct (canLogin (doc_flags d)); cbn [negb]; [|reflexivity].
  destruct (isBlocked d); reflexivity.
Qed.

(** X24.  A refresh request that names no device cannot succeed.  When
    the body has no [deviceId], the controller calls the service with a new
    uuid, and a uuid that is no device of the document, as well as [null]
    or the empty string, matches no device: the controller sends no tokens
    and the document is stored as it was found. *)
Theorem a_refresh_request_without_deviceId_cannot_succeed
    (uuid : string) (clk : RefreshClock) (r : UserLogin)
    (cookieToken bodyToken : option Token) (deviceId : BodyField) :
  deviceId = Absent \/ deviceId = Null \/ deviceId = Text "" ->
  findDevice uuid (loggedInDevices r) = None ->
  let o := authController.refreshTokenController uuid clk (Some r)
             cookieToken bodyToken deviceId in
  snd o = Some r /\ forall body, fst o <> Sent body.
Proof.
  intros D F o. subst o. unfold authController.refreshTokenController.
  destruct (match truthyToken cookieToken with
            | Some t => Some t
            | None => truthyToken bodyToken
            end) as [tok|]; [|split; [reflexivity | discriminate]].
  assert (V : methods.verifyRefreshTokenForDevice r tok (defaultTo uuid deviceId) = false).
  { unfold methods.verifyRefreshTokenForDevice.
    destruct D as [-> | [-> | ->]]; cbn [defaultTo]; [|reflexivity|reflexivity].
    destruct (truthy (Some uuid)) as [id|] eqn:T; [|reflexivity].
    apply truthy_Some in T. destruct T as [[= <-] _]. rewrite F. reflexivity. }
  unfold replyOf.
  destruct (refresh_cases clk r tok (defaultTo uuid deviceId))
    as [[_ E]|[[_ E]|[(_ & _ & E)|(_ & W & _)]]]; [| | |congruence];
    cbn zeta in E; rewrite E; cbn [fst snd]; split; (reflexivity || discriminate).
Qed.

(** X25.  A login request whose body has no [deviceId] adds a device
    session every time it succeeds: the controller names the device with a
    new uuid, the session is added at the end of the device array with
    [loginCount = 1] and the token that is returned, and the response
    carries the uuid as [deviceId]. *)
Theorem a_login_request_without_deviceId_adds_a_device_session
    (uuid : string) (clk : LoginClock) (r : UserLogin) (u : User)
    (loginId pw : string) (ip ua : option string) :
  loginId <> "" -> pw <> "" -> uuid <> "" ->
  findDevice uuid (loggedInDevices r) = None ->
  isPermanentlyLocked r = false ->
  authService.lockPending (at_lockTest clk) r = false ->
  methods.comparePassword r pw = true ->
  canLogin u = true -> isActive u = true ->
  exists res saved,
    authController.loginController uuid clk (Some r) (Some u)
      (Some loginId) (Some pw) Absent ip ua = (Sent res, Some saved) /\
    res_deviceId res = Some uuid /\
    loggedInDevices saved =
    loggedInDevices r ++
    [mkDevice uuid (truthy ip) (truthy ua) 1 (Some (res_refreshToken res))
       [mkLoginEvent (at_loginAt (at_issue clk)) None]].
Proof.
  intros NL NP NU F P L C CL AC. unfold authController.loginController.
  assert (TL : truthy (Some loginId) = Some loginId) by (apply truthy_Some; auto).
  assert (TP : truthy (Some pw) = Some pw) by (apply truthy_Some; auto).
  assert (TU : truthy (Some uuid) = Some uuid) by (apply truthy_Some; auto).
  rewrite TL, TP. cbn [defaultTo]. rewrite login_attempt. cbn zeta.
  rewrite (attempt_success _ r u); cbn [att_clock att_account att_password]; auto.
  2:{ rewrite CL, AC. reflexivity. }
  cbn zeta. cbn [fst snd att_deviceId att_ipAddress att_userAgent].
  unfold replyOf. cbn [fst snd]. eexists. eexists. split; [reflexivity|].
  cbn [res_deviceId res_refreshToken]. split; [reflexivity|].
  pose proof (generateRefreshToken_on_device (at_issue clk)
                (authService.resetOnSuccess (at_lastLogin clk) r)
                (Some uuid) ip ua uuid TU) as W.
  cbn zeta in W. cbn [loggedInDevices authService.resetOnSuccess set_lastLogin
                       set_isLoggedIn set_lockUntil set_lockLevel
                       set_failedLoginAttempts] in W.
  rewrite F in W. exact W.
Qed.

End Requests.

(** ** New credentials *)

Lemma append_inj_l (b x y : string) : (b ++ x)%string = (b ++ y)%string -> x = y.
Proof.
  induction b as [|c b IH]; cbn [append]; [auto|]. intros [= E]. auto.
Qed.

Lemma append_not_empty_l (b x : string) : b <> "" -> (b ++ x)%string <> "".
Proof. destruct b; [congruence | discriminate]. Qed.

Lemma candidate_inj (b : string) (i j : N) : candidate b i = candidate b j -> i = j.
Proof.
  unfold candidate.
  destruct (N.eqb_spec i 0) as [->|Ni], (N.eqb_spec j 0) as [->|Nj]; intros E.
  - reflexivity.
  - exfalso. apply (decimal_not_empty j). apply (append_inj_l b).
    rewrite <- E. clear. induction b as [|c b IH]; [reflexivity|].
    cbn [append]. f_equal. exact IH.
  - exfalso. apply (decimal_not_empty i). apply (append_inj_l b).
    rewrite E. clear. induction b as [|c b IH]; [reflexivity|].
    cbn [append]. f_equal. exact IH.
  - apply decimal_inj. exact (append_inj_l b _ _ E).
Qed.

Lemma In_existsb_eqb (x : string) (l : list string) :
  existsb (String.eqb x) l = true <-> In x l.
Proof.
  rewrite existsb_exists. split.
  - intros (y & I & E). apply String.eqb_eq in E. subst. exact I.
  - intros I. exists x. split; [exact I | apply String.eqb_refl].
Qed.

(** What the loop returns within its fuel: the first candidate that is
    free; and when it runs out, every candidate it tried was taken. *)
Lemma pickUsername_spec (taken : list string) (b : string) (fuel : nat) :
  forall s : N,
    match pickUsername taken b fuel s (candidate b s) with
    | Some name =>
        exists k, (s <= k)%N /\ name = candidate b k /\ ~ In name taken /\
                  forall j, (s <= j < k)%N -> In (candidate b j) taken
    | None =>
        forall j, (s <= j < s + N.of_nat fuel)%N -> In (candidate b j) taken
    end.
Proof.
  induction fuel as [|fuel IH]; intros s.
  - cbn [pickUsername]. intros j H. lia.
  - cbn [pickUsername].
    destruct (existsb (String.eqb (candidate b s)) taken) eqn:X.
    + apply In_existsb_eqb in X.
      assert (C : (b ++ decimal (s + 1))%string = candidate b (s + 1)).
      { unfold candidate. destruct (N.eqb_spec (s + 1) 0); [lia | reflexivity]. }
      rewrite C. specialize (IH (s + 1)%N).
      destruct (pickUsername taken b fuel (s + 1) (candidate b (s + 1))) as [name|].
      * destruct IH as (k & K & E & F & A). exists k. split; [lia|].
        split; [exact E|]. split; [exact F|]. intros j H.
        destruct (N.eq_dec j s) as [->|Nj]; [exact X | apply A; lia].
      * intros j H. destruct (N.eq_dec j s) as [->|Nj]; [exact X | apply IH; lia].
    + exists s. split; [lia|]. split; [reflexivity|]. split.
      * intros I. apply In_existsb_eqb in I. congruence.
      * intros j H. lia.
Qed.

(** One more round than there are usernames is enough. *)
Lemma pickUsername_ends (taken : list string) (b : string) :
  pickUsername taken b (S (List.length taken)) 0 (candidate b 0) <> None.
Proof.
  intros E. pose proof (pickUsername_spec taken b (S (List.length taken)) 0%N) as Sp.
  rewrite E in Sp.
  set (l := map (fun i => candidate b (N.of_nat i)) (seq 0 (S (List.length taken)))).
  assert (ND : NoDup l).
  { apply Injective_map_NoDup; [|apply seq_NoDup].
    intros i j H. apply candidate_inj in H. lia. }
  assert (IN : incl l taken).
  { intros x I. apply in_map_iff in I. destruct I as (i & <- & I).
    apply in_seq in I. apply Sp. lia. }
  pose proof (NoDup_incl_length ND IN) as L.
  unfold l in L. rewrite length_map, length_seq in L. lia.
Qed.

(** X26.  [createUserLoginCredentials] ends and picks the first free
    username.  For a base name that is not empty and a user without
    credentials, after at most one round per username of the collection the
    loop has found a name: the base name itself when it is free, else the
    base name followed by the smallest number from 1 on that makes it free.
    The document saved under it is new: no device, no refresh token, no
    lock, counter zero, the hash of the default password. *)
Theorem createUserLoginCredentials_picks_the_first_free_username
    `{PasswordHasher} (logins : list UserLogin) (salt : string)
    (defaultPassword : option string) (userId : ObjectId) (baseUsername : string) :
  baseUsername <> "" ->
  (forall l, In l logins -> user l <> userId) ->
  exists k,
    createUserLoginCredentials logins (S (List.length logins)) salt defaultPassword
      userId baseUsername =
    Created (candidate baseUsername k)
      (newUserLogin userId (candidate baseUsername k)
         (bcrypt_hash (or_else defaultPassword "12345678") salt)) /\
    ~ In (candidate baseUsername k) (map username logins) /\
    (forall j, (j < k)%N -> In (candidate baseUsername j) (map username logins)).
Proof.
  intros NB NU. unfold createUserLoginCredentials.
  pose proof (pickUsername_ends (map username logins) baseUsername) as E.
  pose proof (pickUsername_spec (map username logins) baseUsername
                (S (List.length (map username logins))) 0%N) as Sp.
  rewrite length_map in E, Sp. change (candidate baseUsername 0) with baseUsername in E, Sp.
  destruct (pickUsername (map username logins) baseUsername (S (List.length logins)) 0
              baseUsername) as [name|]; [|congruence].
  destruct Sp as (k & _ & -> & F & A). exists k.
  assert (NE : String.eqb (candidate baseUsername k) "" = false).
  { apply String.eqb_neq. unfold candidate.
    destruct (k =? 0)%N; [exact NB | apply append_not_empty_l, NB]. }
  assert (NX : existsb (fun l => user l =? userId) logins = false).
  { apply not_true_is_false. intros X. apply existsb_exists in X.
    destruct X as (l & I & X). apply Z.eqb_eq in X. exact (NU l I X). }
  rewrite NE, NX. cbn [orb]. split; [reflexivity|]. split; [exact F|].
  intros j J. apply A. lia.
Qed.

(** ** The theorems at concrete inputs *)

(** Five wrong passwords for alice, one every second, then the right one. *)
Lemma five_failures_lock_the_account_witness :
  let wrong i := attemptAt (t0 + i * 1000) "guess" (Some "dev-A") in
  let r5 :=
    mkUserLogin 7 "alice" "p@ss1" [] 5 1 (Some (t0 + 5000 + 900000)) false false None [] in
  0 <= failedLoginAttempts alice /\
  @logins clearTextHasher defaultTokenConfig
    [wrong 1; wrong 2; wrong 3; wrong 4; wrong 5] alice =
  (repeat (inl InvalidCredentials) 5, r5) /\
  lockLevel r5 = 1 /\
  lockUntil r5 = Some (t0 + 5000 + 900000) /\
  exists minutes,
    0 < minutes /\
    @attempt clearTextHasher defaultTokenConfig
      (attemptAt (t0 + 6000) "p@ss1" (Some "dev-A")) r5 =
    (inl (AccountLockedTemporary minutes), r5).
Proof.
  intros wrong r5.
  assert (NN : 0 <= failedLoginAttempts alice) by (simpl; lia).
  assert (Run : @logins clearTextHasher defaultTokenConfig
                  [wrong 1; wrong 2; wrong 3; wrong 4; wrong 5] alice =
                (repeat (inl InvalidCredentials) 5, r5)) by reflexivity.
  destruct (@five_failures_lock_the_account clearTextHasher defaultTokenConfig
              alice (wrong 1) (wrong 2) (wrong 3) (wrong 4) (wrong 5) r5 NN Run)
    as (LL & LU & Denied & _ & _).
  split; [exact NN|]. split; [exact Run|]. split; [exact LL|]. split; [exact LU|].
  apply (Denied (attemptAt (t0 + 6000) "p@ss1" (Some "dev-A"))).
  - simpl. lia.
  - simpl. unfold t0. lia.
Defined.

Lemma successful_login_resets_failure_state_witness :
  let stale :=
    mkUserLogin 7 "alice" "p@ss1" [] 5 1 (Some (t0 + 900000)) false false None [] in
  exists res saved,
    @authService.login clearTextHasher defaultTokenConfig (loginAt_ (t0 + 900000))
      (Some stale) (Some aliceAccount) "p@ss1" (Some "dev-A") None None =
    (inr res, Some saved) /\
    failedLoginAttempts saved = 0 /\
    lockLevel saved = 0 /\
    lockUntil saved = None /\
    isLoggedIn saved = true /\
    lastLogin saved = Some (t0 + 900000).
Proof.
  intros stale.
  apply (@successful_login_resets_failure_state clearTextHasher defaultTokenConfig
           (loginAt_ (t0 + 900000)) stale aliceAccount "p@ss1" (Some "dev-A") None None);
    reflexivity.
Defined.

Lemma bound_tokens_stay_listed_witness :
  let op := Logout (t0 + 60000) (Some "dev-A") in
  isRevoke op = false /\
  boundTokensListed aliceOnDevA /\
  boundTokensListed (@perform clearTextHasher defaultTokenConfig op aliceOnDevA).
Proof.
  intros op.
  assert (B : boundTokensListed aliceOnDevA)
    by (apply boundTokensListedb_spec; reflexivity).
  split; [reflexivity|]. split; [exact B|].
  apply (@bound_tokens_stay_listed clearTextHasher defaultTokenConfig op aliceOnDevA
           eq_refl B).
Defined.

(** C3 fails for [revokeToken]: alice revokes the token her device holds;
    the entry leaves the list and the device keeps the token. *)
Lemma revoke_leaves_a_bound_token_unlisted :
  let saved := @perform clearTextHasher defaultTokenConfig (Revoke T1) aliceOnDevA in
  boundTokensListed aliceOnDevA /\
  refreshTokens saved = [] /\
  map refreshToken (loggedInDevices saved) = [Some T1] /\
  ~ boundTokensListed saved.
Proof.
  intros saved. split; [apply boundTokensListedb_spec; reflexivity|].
  split; [reflexivity|]. split; [reflexivity|].
  intros B. apply boundTokensListedb_spec in B. discriminate B.
Qed.



Lemma login_without_deviceId_lists_the_token_only_witness :
  exists res saved,
    @authService.login clearTextHasher defaultTokenConfig (loginAt_ t0)
      (Some alice) (Some aliceAccount) "p@ss1" None None None = (inr res, Some saved) /\
    refreshTokens saved = [mkRefreshEntry (res_refreshToken res) "unknown" t0] /\
    loggedInDevices saved = [].
Proof.
  apply (@login_without_deviceId_lists_the_token_only clearTextHasher defaultTokenConfig
           (loginAt_ t0) alice aliceAccount "p@ss1" None None None);
    try reflexivity.
  left. reflexivity.
Defined.

(** C9 fails as stated: after a login without a device id the token is
    listed under "unknown", and there is no device session at all, for
    "unknown" or any other id. *)
Lemma login_without_deviceId_creates_no_session :
  let o := @authService.login clearTextHasher defaultTokenConfig (loginAt_ t0)
             (Some alice) (Some aliceAccount) "p@ss1" None None None in
  (exists res, fst o = inr res /\ res_refreshToken res = T1) /\
  refreshTokens (stored alice o) = [mkRefreshEntry T1 "unknown" t0] /\
  loggedInDevices (stored alice o) = [] /\
  ~ (exists d, In d (loggedInDevices (stored alice o)) /\
               deviceId d = "unknown" /\ refreshToken d = Some T1).
Proof.
  intros o. split; [eexists; split; reflexivity|].
  split; [reflexivity|]. split; [reflexivity|].
  intros (d & I & _). exact I.
Qed.

(** C2 at the input where the code departs from it.  The document of alice
    is in the collection under its own [_id].  She logs in from "dev-A" at
    [t0] and is handed [T1]; the document that is stored binds [T1] to the
    device, and the lookup by [user] that every other method makes finds
    it.  Five seconds later she sends [T1] back from "dev-A".  The token
    verifies, and [refreshTokens] looks for the document whose [_id] is its
    [id] claim, the id of the user: there is none, the call throws "User
    not found", and nothing is issued or rotated. *)
Theorem refresh_with_the_token_of_a_login_finds_no_document :
  let o := @authService.login clearTextHasher defaultTokenConfig (loginAt_ t0)
             (UserLogins.findOneByUsername "alice" aliceStore) (Some aliceAccount)
             "p@ss1" (Some "dev-A") None None in
  let after := UserLogins.save aliceId (stored alice o) aliceStore in
  (exists access,
     fst o = inr (mkLoginResult aliceAccount access T1 false (Some "dev-A"))) /\
  after = [(aliceId, aliceOnDevA)] /\
  UserLogins.findOneByUser 7 after = Some aliceOnDevA /\
  methods.verifyRefreshTokenForDevice aliceOnDevA T1 (Some "dev-A") = true /\
  jwt_verify REFRESH_TOKEN_SECRET T1 (t0 + 5000) =
    inr (mkClaims 7 None 1700000000 1700604800) /\
  UserLogins.findById 7 after = None /\
  @refreshTokensIn defaultTokenConfig (refreshAt (t0 + 5000)) after T1 (Some "dev-A") =
    (inl UserNotFound, None).
Proof.
  intros o after. split; [eexists; reflexivity|].
  split; [reflexivity|]. split; [reflexivity|]. split; [reflexivity|].
  split; [reflexivity|]. split; reflexivity.
Qed.

(** What [revokeRefreshToken] does on every document: the entries with the
    token leave the list, the devices stay as they are, and the answer is
    [true]. *)
Lemma revokeRefreshToken_spec (r : UserLogin) (tok : Token) :
  fst (methods.revokeRefreshToken r tok) = true /\
  loggedInDevices (snd (methods.revokeRefreshToken r tok)) = loggedInDevices r /\
  (forall e, In e (refreshTokens (snd (methods.revokeRefreshToken r tok))) <->
             In e (refreshTokens r) /\ rt_token e <> tok).
Proof.
  split; [reflexivity|]. split; [reflexivity|].
  intros e. cbn. rewrite filter_In, negb_true_iff, Token_eqb_neq. tauto.
Qed.

(** C4 at the input where the code departs from it.  The document of alice
    lists no token at all; revoking [T1] on it answers [true], and the
    service reports success instead of "Token not found". *)
Theorem revoke_of_an_unlisted_token_reports_success :
  refreshTokens alice = [] /\
  methods.revokeRefreshToken alice T1 = (true, alice) /\
  authService.revokeToken (Some alice) T1 = (inr tt, Some alice).
Proof.
  split; [reflexivity|]. split; reflexivity.
Qed.

(** ** The further theorems at concrete inputs *)

Lemma logoutDevice_unbinds_that_device_only_witness :
  let saved := snd (methods.logoutDevice (t0 + 60000) aliceOnDevA (Some "dev-A")) in
  fst (methods.logoutDevice (t0 + 60000) aliceOnDevA (Some "dev-A")) = true /\
  refreshTokens saved = refreshTokens aliceOnDevA /\
  map deviceId (loggedInDevices saved) = map deviceId (loggedInDevices aliceOnDevA) /\
  (forall tok, methods.verifyRefreshTokenForDevice saved tok (Some "dev-A") = false) /\
  (forall tok dev',
     truthy dev' <> truthy (Some "dev-A") ->
     methods.verifyRefreshTokenForDevice saved tok dev' =
     methods.verifyRefreshTokenForDevice aliceOnDevA tok dev').
Proof.
  split; [reflexivity|].
  apply (logoutDevice_unbinds_that_device_only (t0 + 60000) aliceOnDevA (Some "dev-A")).
  reflexivity.
Defined.

Lemma a_login_that_fails_writes_the_counters_only_witness :
  let a := attemptAt t0 "guess" (Some "dev-A") in
  let saved := snd (@attempt clearTextHasher defaultTokenConfig a aliceOnDevA) in
  fst (@attempt clearTextHasher defaultTokenConfig a aliceOnDevA) = inl InvalidCredentials /\
  loggedInDevices saved = loggedInDevices aliceOnDevA /\
  refreshTokens saved = refreshTokens aliceOnDevA /\
  isLoggedIn saved = isLoggedIn aliceOnDevA /\
  lastLogin saved = lastLogin aliceOnDevA /\
  password saved = password aliceOnDevA /\
  isPermanentlyLocked saved = isPermanentlyLocked aliceOnDevA /\
  (InvalidCredentials <> InvalidCredentials -> saved = aliceOnDevA).
Proof.
  split; [reflexivity|].
  apply (@a_login_that_fails_writes_the_counters_only clearTextHasher defaultTokenConfig
           (attemptAt t0 "guess" (Some "dev-A")) aliceOnDevA InvalidCredentials).
  reflexivity.
Defined.

Lemma every_failure_from_the_fifth_on_locks_again_witness :
  let wrong i := attemptAt (t0 + i * 1000000) "guess" (Some "dev-A") in
  let l := [wrong 1; wrong 2; wrong 3; wrong 4; wrong 5] in
  let saved := snd (@logins clearTextHasher defaultTokenConfig (l ++ [wrong 6]) alice) in
  Forall (fun x => x = inl InvalidCredentials)
    (fst (@logins clearTextHasher defaultTokenConfig (l ++ [wrong 6]) alice)) /\
  failedLoginAttempts saved = 6 /\
  lockLevel saved = 1 /\
  lockUntil saved = Some (t0 + 6000000 + 900000).
Proof.
  intros wrong l saved.
  assert (F : Forall (fun x => x = inl InvalidCredentials)
                (fst (@logins clearTextHasher defaultTokenConfig (l ++ [wrong 6]) alice)))
    by (repeat constructor).
  split; [exact F|].
  destruct (@every_failure_from_the_fifth_on_locks_again clearTextHasher defaultTokenConfig
              alice l (wrong 6) F) as (_ & N & LL & LU).
  - simpl. lia.
  - split; [exact N|]. split; [exact LL | exact LU].
Defined.


(** An hour after her login alice sends [T1] back from "dev-A"; her
    document is in the collection, under its own [_id]. *)
Lemma refresh_never_finds_the_document_of_a_login_witness :
  let a := attemptAt t0 "p@ss1" (Some "dev-A") in
  @attempt clearTextHasher defaultTokenConfig a alice = (inr aliceLoginResult, aliceOnDevA) /\
  noDocumentUnder 7 [(aliceId, aliceOnDevA)] /\
  @refreshTokensIn defaultTokenConfig (refreshAt (t0 + 3600000)) [(aliceId, aliceOnDevA)]
    T1 (Some "dev-A") = (inl UserNotFound, None).
Proof.
  intros a.
  assert (N : noDocumentUnder 7 [(aliceId, aliceOnDevA)]).
  { intros e [<-|[]]. discriminate. }
  split; [reflexivity|]. split; [exact N|].
  destruct (@refresh_never_finds_the_document_of_a_login clearTextHasher
              defaultTokenConfig [(aliceId, aliceOnDevA)] a alice aliceLoginResult
              aliceOnDevA (refreshAt (t0 + 3600000)) (Some "dev-A") eq_refl N) as [Ok _].
  apply Ok. reflexivity.
Defined.

(** [REFRESH_TOKEN_EXPIRY] set to thirty days, and set to a number of
    seconds. *)
Lemma refresh_cookie_maxAge_is_always_a_number_witness :
  let days := mkEnv None None (Some "30d") in
  let seconds := mkEnv None None (Some "604800") in
  withinExactRange (or_else (REFRESH_TOKEN_EXPIRY days) "10d") = true /\
  maxAge (getRefreshTokenCookieOptions days) = Some 2592000000 /\
  maxAge (getRefreshTokenCookieOptions seconds) = Some 604800000.
Proof.
  intros days seconds. split; [reflexivity|]. split.
  - destruct (refresh_cookie_maxAge_is_always_a_number days eq_refl)
      as (ms & _ & M & _). rewrite M. vm_compute in M. symmetry. exact M.
  - destruct (refresh_cookie_maxAge_is_always_a_number seconds eq_refl)
      as (ms & _ & M & _ & _ & _ & S7).
    rewrite M. f_equal. apply (S7 "60480" "0"%char); [reflexivity|].
    cbn. intros [X|[X|[X|[X|[X|[X|[]]]]]]]; discriminate X.
Defined.

Lemma convertExpiryToMs_reads_a_number_and_a_unit_witness :
  convertExpiryToMs (Some "15m") = Some 900000 /\
  convertExpiryToMs (Some "10D") = Some 864000000.
Proof.
  split.
  - apply (convertExpiryToMs_reads_a_number_and_a_unit 15 "m" 60000).
    + left. reflexivity.
    + vm_compute. discriminate.
  - apply (convertExpiryToMs_reads_a_number_and_a_unit 10 "D" 86400000).
    + do 5 right. left. reflexivity.
    + vm_compute. discriminate.
Defined.


(** A plain user locks the account of alice as an administrator would. *)
Lemma lock_account_route_does_not_check_the_role_witness :
  let token := Some (res_accessToken aliceLoginResult) in
  let asUser := fun _ : ObjectId => Some (mkUserDoc (mkUser true true) false "user") in
  let asAdmin := fun _ : ObjectId => Some (mkUserDoc (mkUser true true) false "admin") in
  let findLogin := fun _ : ObjectId => Some aliceOnDevA in
  match postLockAccount true (t0 + 60000) token asUser (fun _ => t0 + 60000) findLogin
          (Some 7) None,
        postLockAccount true (t0 + 60000) token asAdmin (fun _ => t0 + 60000) findLogin
          (Some 7) None with
  | inr o, inr o' => o = o'
  | inl m, inl m' => m = m'
  | _, _ => False
  end.
Proof.
  intros token asUser asAdmin findLogin.
  apply (lock_account_route_does_not_check_the_role true (t0 + 60000) token asUser asAdmin
           (fun _ => t0 + 60000) findLogin (Some 7) None).
  reflexivity.
Defined.

Lemma a_refresh_request_without_deviceId_cannot_succeed_witness :
  let o := @authController.refreshTokenController defaultTokenConfig
             "0b0e7a52-7a5c-4c29-9d0e-3c1f6a4b8d11" (refreshAt (t0 + 5000))
             (Some aliceOnDevA) (Some T1) None Absent in
  snd o = Some aliceOnDevA /\ forall body, fst o <> Sent body.
Proof.
  apply (@a_refresh_request_without_deviceId_cannot_succeed defaultTokenConfig
           "0b0e7a52-7a5c-4c29-9d0e-3c1f6a4b8d11" (refreshAt (t0 + 5000)) aliceOnDevA
           (Some T1) None Absent).
  - left. reflexivity.
  - reflexivity.
Defined.

Lemma a_login_request_without_deviceId_adds_a_device_session_witness :
  exists res saved,
    @authController.loginController clearTextHasher defaultTokenConfig
      "0b0e7a52-7a5c-4c29-9d0e-3c1f6a4b8d11" (loginAt_ (t0 + 5000)) (Some aliceOnDevA)
      (Some aliceAccount) (Some "alice") (Some "p@ss1") Absent None None =
    (Sent res, Some saved) /\
    res_deviceId res = Some "0b0e7a52-7a5c-4c29-9d0e-3c1f6a4b8d11" /\
    loggedInDevices saved =
    loggedInDevices aliceOnDevA ++
    [mkDevice "0b0e7a52-7a5c-4c29-9d0e-3c1f6a4b8d11" None None 1
       (Some (res_refreshToken res)) [mkLoginEvent (t0 + 5000) None]].
Proof.
  apply (@a_login_request_without_deviceId_adds_a_device_session clearTextHasher
           defaultTokenConfig "0b0e7a52-7a5c-4c29-9d0e-3c1f6a4b8d11" (loginAt_ (t0 + 5000))
           aliceOnDevA aliceAccount "alice" "p@ss1" None None);
    try reflexivity; discriminate.
Defined.

(** "bob" and "bob1" are taken: a second Bob becomes "bob2". *)
Lemma createUserLoginCredentials_picks_the_first_free_username_witness :
  let logins := [newUserLogin 1 "bob" "h1"; newUserLogin 2 "bob1" "h2"; alice] in
  @createUserLoginCredentials clearTextHasher logins 4 "salt" None 9 "bob" =
  Created "bob2" (newUserLogin 9 "bob2" "12345678") /\
  exists k,
    @createUserLoginCredentials clearTextHasher logins 4 "salt" None 9 "bob" =
    Created (candidate "bob" k) (newUserLogin 9 (candidate "bob" k) "12345678") /\
    ~ In (candidate "bob" k) (map username logins) /\
    (forall j, (j < k)%N -> In (candidate "bob" j) (map username logins)).
Proof.
  intros logins. split; [reflexivity|].
  apply (@createUserLoginCredentials_picks_the_first_free_username clearTextHasher
           logins "salt" None 9 "bob").
  - discriminate.
  - intros l [<-|[<-|[<-|[]]]]; discriminate.
Defined.
